(** * FinSage risk scoring service

    A shallow embedding of [finsage-risk-score/app.py]: the [Features]
    request model, the [score] handler behind [POST /score], and the pieces
    of the Python runtime the handler relies on (binary64 arithmetic, the
    built-ins [abs], [min], [max] and [round], the [random] and [time]
    modules, request validation).

    Python's [float] is IEEE 754 binary64, which is exactly Rocq's primitive
    [float]; the specification of its operations ([SpecFloat]) is used for
    the universally quantified results. *)

From Stdlib Require Import ZArith Floats Lia List Ascii String Bool.
Import ListNotations.

Set Warnings "-inexact-float,-register-all".
Local Open Scope string_scope.
Local Open Scope list_scope.
Local Open Scope float_scope.

(** ** Python numbers *)

Module Py.

(** The exceptions the arithmetic of the handler could raise. *)
Inductive exn : Type :=
| ZeroDivisionError
| OverflowError.

(** The handler mixes [int] literals with [float] values: [min(1, x)]
    and [max(0, x)] return the [int] object itself when it wins. *)
Inductive num : Type :=
| PyInt (n : Z)
| PyFloat (x : float).

(** [float(n)] for an [int]: the nearest binary64 value. *)
Definition float_of_Z (n : Z) : float :=
  SF2Prim (binary_normalize prec emax n 0 false).

Definition to_float (v : num) : float :=
  match v with
  | PyInt n => float_of_Z n
  | PyFloat x => x
  end.

(** [a < b], [a <= b] and [a == b] on numbers. Python compares an
    [int] with a [float] by value; the only [int]s the handler compares
    are 0 and 1, which [float_of_Z] converts exactly. *)
Definition lt (a b : num) : bool :=
  match a, b with
  | PyInt m, PyInt n => (m <? n)%Z
  | _, _ => to_float a <? to_float b
  end.

Definition le (a b : num) : bool :=
  match a, b with
  | PyInt m, PyInt n => (m <=? n)%Z
  | _, _ => to_float a <=? to_float b
  end.

Definition eq (a b : num) : bool :=
  match a, b with
  | PyInt m, PyInt n => (m =? n)%Z
  | _, _ => to_float a =? to_float b
  end.

(** [a + b]: an [int] operand of a mixed sum is converted first. *)
Definition add (a b : num) : num :=
  match a, b with
  | PyInt m, PyInt n => PyInt (m + n)
  | _, _ => PyFloat (to_float a + to_float b)
  end.

(** [x / y] on floats raises on a zero divisor. *)
Definition truediv (x y : float) : exn + float :=
  if y =? 0 then inl ZeroDivisionError else inr (x / y).

(** The two-argument built-ins keep their first argument unless the
    second one compares strictly better, so an unordered (NaN) second
    argument never wins. *)
Definition min (a b : num) : num := if lt b a then b else a.
Definition max (a b : num) : num := if lt a b then b else a.

(** *** [round(x, ndigits)]

    For a finite float CPython prints the exact binary value with
    [ndigits] decimals, correctly rounded with ties to even, and reads the
    decimal string back as the nearest float. *)

(** Nearest integer to [num / den] ([den > 0]), ties to even. *)
Definition div_half_even (num den : Z) : Z :=
  let q := (num / den)%Z in
  let r := (num mod den)%Z in
  match (2 * r ?= den)%Z with
  | Lt => q
  | Eq => if Z.even q then q else (q + 1)%Z
  | Gt => (q + 1)%Z
  end.

(** Nearest integer to [m * 2^e * 10^nd]. *)
Definition scaled_digits (m : positive) (e nd : Z) : Z :=
  div_half_even
    (Zpos m * 2 ^ Z.max e 0 * 10 ^ Z.max nd 0)
    (2 ^ Z.max (- e) 0 * 10 ^ Z.max (- nd) 0).

(** The float nearest to [(-1)^s * n / d]. *)
Definition nearest_quotient (s : bool) (n d : positive) : float :=
  SF2Prim (SF64div (S754_finite s n 0) (S754_finite false d 0)).

(** The float a decimal numeral with mantissa [k] and [nd] decimals
    denotes: [k * 10^(-nd)]. *)
Definition decimal (s : bool) (k nd : Z) : float :=
  match (k * 10 ^ Z.max (- nd) 0)%Z with
  | Zpos n => nearest_quotient s n (Z.to_pos (10 ^ Z.max nd 0))
  | _ => if s then -0 else 0
  end.

Definition round_to (x : float) (ndigits : Z) : float :=
  match Prim2SF x with
  | S754_finite s m e =>
      if (323 <? ndigits)%Z then x
      else if (ndigits <? -308)%Z then 0 * x
      else decimal s (scaled_digits m e ndigits) ndigits
  | _ => x
  end.

Definition round (v : num) (ndigits : Z) : exn + num :=
  match v with
  | PyInt n =>
      if (0 <=? ndigits)%Z then inr (PyInt n)
      else
        let p := (10 ^ (- ndigits))%Z in
        inr (PyInt (div_half_even n p * p))
  | PyFloat x =>
      let r := round_to x ndigits in
      if is_infinity r && negb (is_infinity x) then inl OverflowError
      else inr (PyFloat r)
  end.

End Py.

(** ** The effects of the handler

    [score] draws from the global random generator and reads the clock.
    Both are outside the repository, so the world they live in is a
    parameter: a state that each call inspects and advances. *)

Class Runtime (World : Type) : Type := {
  (** [random.uniform(a, b)] *)
  random_uniform : float -> float -> World -> float * World;
  (** [random.randint(a, b)] *)
  random_randint : Z -> Z -> World -> Z * World;
  (** [time.time()] *)
  time_time : World -> float * World
}.

(** The documented range of [random.randint]. *)
Definition randint_in_range {World} `{Runtime World} : Prop :=
  forall a b w, (a <= b)%Z -> (a <= fst (random_randint a b w) <= b)%Z.

(** Computations that may raise and that thread the world. *)
Definition Eff (World A : Type) : Type := World -> (Py.exn + A) * World.

Definition ret {World A} (a : A) : Eff World A := fun w => (inr a, w).

Definition bind {World A B} (c : Eff World A) (k : A -> Eff World B)
  : Eff World B :=
  fun w =>
    match c w with
    | (inl e, w') => (inl e, w')
    | (inr a, w') => k a w'
    end.

(** A pure step that may raise. *)
Definition lift {World A} (r : Py.exn + A) : Eff World A := fun w => (r, w).

(** A call into the runtime; it never raises. *)
Definition call {World A} (f : World -> A * World) : Eff World A :=
  fun w => let (a, w') := f w in (inr a, w').

Declare Scope eff_scope.
Delimit Scope eff_scope with eff.
Notation "x <- c ;; k" := (bind c (fun x => k))
  (at level 100, c at next level, right associativity) : eff_scope.

(** ** The request model and the handler *)

(** [class Features(BaseModel)]: a required [str] and five [float]
    fields. The class writes the defaults of [rsi] and [pe] as the [int]s
    50 and 20 and the library stores defaults as written; the handler only
    subtracts from them and divides them, which gives the floats it gives
    for 50.0 and 20.0, so the fields are floats throughout. *)
Record Features : Type := {
  ticker : string;
  rsi : float;
  pe : float;
  peg : float;
  sentiment : float;
  atr : float
}.

(** The dictionary [score] returns. *)
Record Response : Type := {
  r_ticker : string;
  risk_score : Py.num;
  timestamp : float;
  latency_ms : Z;
  model_version : string
}.

Section Handler.

Context {World : Type} `{Runtime World}.

Local Open Scope eff_scope.

(** The arithmetic up to [base_risk]. An [int] literal next to a float
    is converted to a float first; 50, 100, 1, 2 and 3 convert
    exactly. *)
Definition rsi_term (features : Features) : Py.exn + float :=
  Py.truediv (abs (rsi features - 50)) 50.

Definition pe_term (features : Features) : Py.exn + float :=
  Py.truediv (pe features) 100.

Definition sentiment_term (features : Features) : Py.exn + float :=
  match Py.truediv (sentiment features + 1) 2 with
  | inl e => inl e
  | inr h => inr (1 - h)
  end.

Definition base_risk (features : Features) : Py.exn + Py.num :=
  match rsi_term features with
  | inl e => inl e
  | inr rsi_term =>
  match pe_term features with
  | inl e => inl e
  | inr pe_term =>
  match sentiment_term features with
  | inl e => inl e
  | inr sentiment_term =>
  match Py.truediv (rsi_term + pe_term + sentiment_term) 3 with
  | inl e => inl e
  | inr mean => inr (Py.min (Py.PyInt 1) (Py.PyFloat mean))
  end end end end.

(** [score_value = round(min(1, max(0, base_risk + jitter)), 3)] *)
Definition score_value (base_risk : Py.num) (jitter : float) : Py.exn + Py.num :=
  Py.round
    (Py.min (Py.PyInt 1)
       (Py.max (Py.PyInt 0) (Py.add base_risk (Py.PyFloat jitter))))
    3.

(** [def score(features: Features)]: the arithmetic, the jitter, the
    rounded value, then the dictionary, whose values are evaluated in the
    order they are written. *)
Definition score (features : Features) : Eff World Response :=
  base_risk <- lift (base_risk features) ;;
  jitter <- call (random_uniform (-0.05) 0.05) ;;
  score_value <- lift (score_value base_risk jitter) ;;
  now <- call time_time ;;
  latency <- call (random_randint 10 30) ;;
  ret {| r_ticker := ticker features;
         risk_score := score_value;
         timestamp := now;
         latency_ms := latency;
         model_version := "v0.1" |}.

(** What the three runtime calls of one request return, and the world
    they leave. *)
Definition drawn_jitter (w : World) : float :=
  fst (random_uniform (-0.05) 0.05 w).

Definition clock_reading (w : World) : float :=
  fst (time_time (snd (random_uniform (-0.05) 0.05 w))).

Definition drawn_latency (w : World) : Z :=
  fst (random_randint 10 30
         (snd (time_time (snd (random_uniform (-0.05) 0.05 w))))).

Definition final_world (w : World) : World :=
  snd (random_randint 10 30
         (snd (time_time (snd (random_uniform (-0.05) 0.05 w))))).

End Handler.

(** [0 <= v <= 1] *)
Definition in_unit_interval (v : Py.num) : bool :=
  Py.le (Py.PyInt 0) v && Py.le v (Py.PyInt 1).

(** [-0.05 <= j <= 0.05], the range [random.uniform(-0.05, 0.05)]
    documents. *)
Definition jitter_in_range (j : float) : bool :=
  (-0.05 <=? j) && (j <=? 0.05).

(** ** The formula of the specification

    The six steps as the specification words them, on floats. [min] is
    the smaller of its arguments and the first one when they do not
    compare; [clamp] moves a value outside [[lo, hi]] to the nearer
    bound. *)

Module Spec.

Definition min (a b : float) : float := if b <? a then b else a.

Definition clamp (x lo hi : float) : float :=
  if x <? lo then lo else if hi <? x then hi else x.

Definition rsi_term (features : Features) : float :=
  abs (rsi features - 50) / 50.

Definition pe_term (features : Features) : float :=
  pe features / 100.

Definition sentiment_term (features : Features) : float :=
  1 - (sentiment features + 1) / 2.

Definition base_risk (features : Features) : float :=
  min 1 ((rsi_term features + pe_term features + sentiment_term features) / 3).

Definition risk_score (features : Features) (jitter : float) : float :=
  Py.round_to (clamp (base_risk features + jitter) 0 1) 3.

End Spec.

(** ** Request validation and the endpoint

    [@app.post("/score")] with a [Features] parameter makes the framework
    parse the body as JSON, validate it against the model and answer 422
    without calling the handler when validation fails. A body on which
    the parser raises anything but a syntax error is answered 400. *)

Inductive json : Type :=
| JNull
| JBool (b : bool)
| JInt (n : Z)
| JFloat (x : float)
| JStr (s : string)
| JArr (items : list json)
| JObj (members : list (string * json)).

(** A request body as the framework finds it: no bytes at all; bytes with
    a JSON syntax error; bytes on which the parser raises another
    exception (they are not UTF-8, they nest beyond the recursion limit,
    an integer has more digits than the interpreter converts); or a JSON
    value. *)
Inductive body : Type :=
| Empty
| Malformed
| Unparseable
| Parsed (j : json).

(** How a JSON value is read at a declared field type is the validation
    library's business. *)
Class Decoders : Type := {
  as_str : json -> option string;
  as_float : json -> option float
}.

Inductive field_error : Type :=
| Missing (field : string)
| Invalid (field : string).

(** The member a key is bound to; a repeated key keeps its last value. *)
Fixpoint member (key : string) (members : list (string * json)) : option json :=
  match members with
  | [] => None
  | (k, v) :: rest =>
      match member key rest with
      | Some v' => Some v'
      | None => if String.eqb k key then Some v else None
      end
  end.

Section Validation.

Context `{Decoders}.

(** One declared field: its value, or what is wrong with it. A field
    without a default is required. *)
Definition field {A : Type} (decode : json -> option A) (default : option A)
    (key : string) (members : list (string * json)) : field_error + A :=
  match member key members with
  | Some v =>
      match decode v with
      | Some a => inr a
      | None => inl (Invalid key)
      end
  | None =>
      match default with
      | Some a => inr a
      | None => inl (Missing key)
      end
  end.

Definition errors {A : Type} (r : field_error + A) : list field_error :=
  match r with
  | inl e => [e]
  | inr _ => []
  end.

(** [Features.model_validate]: every field is checked and all the
    failures are reported together. An empty body is reported as a missing
    one; a body the parser gave up on never gets here. *)
Definition validate (b : body) : list field_error + Features :=
  match b with
  | Parsed (JObj members) =>
      let ticker := field as_str None "ticker" members in
      let rsi := field as_float (Some 50) "rsi" members in
      let pe := field as_float (Some 20) "pe" members in
      let peg := field as_float (Some 1.0) "peg" members in
      let sentiment := field as_float (Some 0.0) "sentiment" members in
      let atr := field as_float (Some 1.0) "atr" members in
      match ticker, rsi, pe, peg, sentiment, atr with
      | inr ticker, inr rsi, inr pe, inr peg, inr sentiment, inr atr =>
          inr {| ticker := ticker; rsi := rsi; pe := pe; peg := peg;
                 sentiment := sentiment; atr := atr |}
      | _, _, _, _, _, _ =>
          inl (errors ticker ++ errors rsi ++ errors pe ++ errors peg
               ++ errors sentiment ++ errors atr)
      end
  | Empty => inl [Missing "body"]
  | _ => inl [Invalid "body"]
  end.

End Validation.

(** *** Conforming requests

    What it is for a request to supply a parseable ticker and
    type-conforming numeric fields, read off the object on its own terms:
    the value a name has is the one of the last member so named. *)


Section Conformance.

Context `{Decoders}.

(** A present field conforms when it decodes at its declared type; an
    absent one when it is not required. *)
Definition parses {A : Type} (decode : json -> option A) (required : bool)
    (v : option json) : bool :=
  match v with
  | Some j => match decode j with Some _ => true | None => false end
  | None => negb required
  end.



End Conformance.

(** ** The response on the wire

    The framework renders the returned dictionary as a JSON object, its
    keys in the order written, and encodes the text as UTF-8. The renderer
    refuses a NaN or an infinity, and the encoder a lone surrogate; either
    surfaces as a 500 with a plain-text body. *)

(** A [str] is held as the bytes of its code points in UTF-8. A lone
    surrogate (U+D800 to U+DFFF), which a [str] can hold and UTF-8 proper
    excludes, is held as the three bytes the same scheme gives it: 237,
    then a byte from 160 to 191, then a continuation byte. No other code
    point starts with these two bytes. *)
Definition surrogate_lead (a b : ascii) : bool :=
  (nat_of_ascii a =? 237)%nat
  && (160 <=? nat_of_ascii b)%nat && (nat_of_ascii b <=? 191)%nat.

Fixpoint has_surrogate (s : string) : bool :=
  match s with
  | String a rest =>
      match rest with
      | String b _ => surrogate_lead a b || has_surrogate rest
      | EmptyString => false
      end
  | EmptyString => false
  end.

(** [s.encode("utf-8")] succeeds. *)
Definition utf8_encodable (s : string) : bool := negb (has_surrogate s).

Definition num_json (v : Py.num) : option json :=
  match v with
  | Py.PyInt n => Some (JInt n)
  | Py.PyFloat x => if is_finite x then Some (JFloat x) else None
  end.

Definition render (content : Response) : option json :=
  if utf8_encodable (r_ticker content)
     && utf8_encodable (model_version content)
  then
    match num_json (risk_score content),
          num_json (Py.PyFloat (timestamp content)) with
    | Some score_json, Some timestamp_json =>
        Some (JObj [("ticker", JStr (r_ticker content));
                    ("risk_score", score_json);
                    ("timestamp", timestamp_json);
                    ("latency_ms", JInt (latency_ms content));
                    ("model_version", JStr (model_version content))])
    | _, _ => None
    end
  else None.

(** The endpoint's answer: the rendered content, the failures of
    validation, or a bare status. *)
Inductive http_response : Type :=
| Http200 (content : json)
| Http400
| Http422 (detail : list field_error)
| Http500.

Section Endpoint.

Context `{Decoders} {World : Type} `{Runtime World}.

(** [POST /score]: the body is parsed and validated, the handler is
    called, what it returns is rendered. *)
Definition post_score (b : body) (w : World) : http_response * World :=
  match b with
  | Unparseable => (Http400, w)
  | _ =>
      match validate b with
      | inl detail => (Http422 detail, w)
      | inr features =>
          match score features w with
          | (inr content, w') =>
              match render content with
              | Some rendered => (Http200 rendered, w')
              | None => (Http500, w')
              end
          | (inl _, w') => (Http500, w')
          end
      end
  end.

End Endpoint.

(** *** A concrete runtime and decoder

    One admissible instance of each parameter, used to run the model. The
    world replays a fixed variate of [random.random()] and a fixed integer;
    [uniform] and [randint] derive their results from them as CPython
    does. *)

Record replay : Type := {
  variate : float;
  raw_int : Z;
  clock : float
}.

#[export] Instance replay_runtime : Runtime replay := {
  random_uniform a b w := (a + (b - a) * variate w, w);
  random_randint a b w := ((a + raw_int w mod (b - a + 1))%Z, w);
  time_time w := (clock w, w)
}.

(** The library reads a JSON string at [str]; at [float] it reads a JSON
    number, refusing an integer too large for a double, and a boolean as
    1.0 or 0.0. It also reads at [float] a string that spells a number:
    this instance reads no string there, and is run only on requests whose
    strings spell none. *)
#[export] Instance json_decoders : Decoders := {
  as_str j := match j with JStr s => Some s | _ => None end;
  as_float j :=
    match j with
    | JFloat x => Some x
    | JInt n =>
        let x := Py.float_of_Z n in
        if is_infinity x then None else Some x
    | JBool b => Some (if b then 1 else 0)
    | _ => None
    end
}.

Definition noon : replay :=
  {| variate := 0.5; raw_int := 7; clock := 1700000000 |}.

(** The first request of the manual test client. *)
Definition aapl : body :=
  Parsed (JObj [("ticker", JStr "AAPL"); ("rsi", JFloat 65.5);
                ("pe", JFloat 25.2); ("peg", JFloat 1.1);
                ("sentiment", JFloat 0.3); ("atr", JFloat 2.5)]).

(** The other two requests of the manual test client. *)
Definition msft : body :=
  Parsed (JObj [("ticker", JStr "MSFT"); ("rsi", JFloat 45.0);
                ("pe", JFloat 18.5); ("peg", JFloat 0.9);
                ("sentiment", JFloat (-0.2)); ("atr", JFloat 1.8)]).

Definition nvda : body :=
  Parsed (JObj [("ticker", JStr "NVDA"); ("rsi", JFloat 80.0);
                ("pe", JFloat 45.0); ("peg", JFloat 2.5);
                ("sentiment", JFloat 0.8); ("atr", JFloat 5.2)]).

(** The first request of the manual test client, validated. *)
Definition aapl_features : Features :=
  {| ticker := "AAPL"; rsi := 65.5; pe := 25.2; peg := 1.1;
     sentiment := 0.3; atr := 2.5 |}.

(** The names [Features] declares; the last five are the numeric ones. *)
Definition numeric_fields : list string :=
  ["rsi"; "pe"; "peg"; "sentiment"; "atr"].


(** What the framework makes of a JSON document. The parser gives up on
    one beyond its limits, the nesting depth and the digits of an integer
    it can take, which are the interpreter's. *)
Definition received (within_limits : json -> bool) (document : json) : body :=
  if within_limits document then Parsed document else Unparseable.

(** The nesting depth of a document. *)
Fixpoint nesting (j : json) : nat :=
  match j with
  | JArr items =>
      S (fold_right (fun item d => Nat.max (nesting item) d) 0%nat items)
  | JObj members =>
      S (fold_right
           (fun (kv : string * json) d => let (_, v) := kv in Nat.max (nesting v) d)
           0%nat members)
  | _ => 0%nat
  end.


(** ** The client's side of the wire

    How one validation failure is rendered inside a 422 body is the
    library's business. *)

(** What [requests.post] gives a client. *)
Inductive reply : Type :=
| ConnectionError
| OtherException
| Replied (status_code : Z) (payload : option json).

Section Wire.

Context `{Decoders} {World : Type} `{Runtime World}.

Variable error_json : field_error -> json.

Definition respond (r : http_response) : reply :=
  match r with
  | Http200 content => Replied 200 (Some content)
  | Http400 =>
      Replied 400
        (Some (JObj [("detail", JStr "There was an error parsing the body")]))
  | Http422 detail =>
      Replied 422 (Some (JObj [("detail", JArr (map error_json detail))]))
  | Http500 => Replied 500 None
  end.

(** A reachable service answering one request. *)
Definition serve (b : body) (w : World) : reply * World :=
  let (r, w') := post_score b w in (respond r, w').

End Wire.

(** ** The manual test client ([test_service.py]) *)

Definition required_fields : list string :=
  ["ticker"; "risk_score"; "timestamp"; "latency_ms"; "model_version"].

(** [field in result]: a key of a dictionary, an element of a list, a
    substring of a string; any other value is not iterable and raises. *)
Definition py_in (field : string) (result : json) : option bool :=
  match result with
  | JObj members =>
      Some (match member field members with Some _ => true | None => false end)
  | JArr items =>
      Some (existsb (fun j => match j with
                              | JStr s => String.eqb s field
                              | _ => false
                              end) items)
  | JStr s =>
      Some (match index 0 field s with Some _ => true | None => false end)
  | _ => None
  end.

(** [all(field in result for field in fields)], left to right, stopping
    at the first [False]. *)
Fixpoint all_in (fields : list string) (result : json) : option bool :=
  match fields with
  | [] => Some true
  | field :: rest =>
      match py_in field result with
      | Some true => all_in rest result
      | Some false => Some false
      | None => None
      end
  end.

(** The line the client prints about one test case. *)
Inductive verdict : Type :=
| StructureValid
| StructureInvalid
| HttpError (status_code : Z)
| ConnectionFailed
| Errored.

(** The body of the loop: the [try] block and its two handlers. *)
Definition check_reply (r : reply) : verdict :=
  match r with
  | Replied status_code payload =>
      if (status_code =? 200)%Z then
        match payload with
        | Some result =>
            match all_in required_fields result with
            | Some true => StructureValid
            | Some false => StructureInvalid
            | None => Errored
            end
        | None => Errored
        end
      else HttpError status_code
  | ConnectionError => ConnectionFailed
  | OtherException => Errored
  end.

Definition test_cases : list body := [aapl; msft; nvda].

(** [for i, test_case in enumerate(test_cases, 1)]: the requests go out one
    after the other. *)
Fixpoint run_cases {Net : Type} (post : body -> Net -> reply * Net)
    (cases : list body) (net : Net) : list verdict * Net :=
  match cases with
  | [] => ([], net)
  | test_case :: rest =>
      let (r, net') := post test_case net in
      let (verdicts, net'') := run_cases post rest net' in
      (check_reply r :: verdicts, net'')
  end.

Definition test_risk_scoring {Net : Type} (post : body -> Net -> reply * Net)
    (net : Net) : list verdict * Net :=
  run_cases post test_cases net.

(** The numerals with three decimals between 0.000 and 1.000: what is
    checked of each, by evaluation. *)
Definition unit_numeral_ok (k : Z) : bool :=
  let r := Py.decimal false k 3 in
  (0 <=? r) && (r <=? 1) && (r =? r) && (r =? Py.float_of_Z k / 1000)
  && ((k <? 950)%Z || (0.95 <=? r))
  && negb (is_infinity r)
  && Leibniz.eqb (Py.round_to r 3) r.

(** * Properties *)

(** ** The model at work *)

Example round_ties_to_even : Py.round_to 0.125 2 = 0.12.
Proof. vm_compute. reflexivity. Qed.

Example round_uses_exact_value : Py.round_to 2.675 2 = 2.67.
Proof. vm_compute. reflexivity. Qed.

Example round_keeps_sign_of_zero : Py.round_to (-0.0001) 3 = (-0).
Proof. vm_compute. reflexivity. Qed.

Example round_negative_ndigits : Py.round_to 1234.5678 (-2) = 1200.
Proof. vm_compute. reflexivity. Qed.

Example round_int_is_identity : Py.round (Py.PyInt 1) 3 = inr (Py.PyInt 1).
Proof. reflexivity. Qed.

Example min_keeps_int_on_nan : Py.min (Py.PyInt 1) (Py.PyFloat nan) = Py.PyInt 1.
Proof. reflexivity. Qed.

Example min_keeps_int_on_tie : Py.min (Py.PyInt 1) (Py.PyFloat 1) = Py.PyInt 1.
Proof. reflexivity. Qed.

Example min_returns_the_int_on_nan :
  base_risk {| ticker := "X"; rsi := nan; pe := 20; peg := 1;
               sentiment := 0; atr := 1 |} = inr (Py.PyInt 1).
Proof. reflexivity. Qed.

Example negative_base_risk_scores_zero :
  base_risk {| ticker := "X"; rsi := 50; pe := -1000; peg := 1;
               sentiment := 1; atr := 1 |}
  = inr (Py.PyFloat (-10 / 3)) /\
  score_value (Py.PyFloat (-10 / 3)) 0.05 = inr (Py.PyInt 0).
Proof. split; reflexivity. Qed.

Example post_score_aapl :
  post_score aapl noon
  = (Http200 (JObj [("ticker", JStr "AAPL"); ("risk_score", JFloat 0.304);
                    ("timestamp", JFloat 1700000000); ("latency_ms", JInt 17);
                    ("model_version", JStr "v0.1")]), noon).
Proof. vm_compute. reflexivity. Qed.

(** [test_service.py]: each of its three requests is answered 200. *)
Example smoke_test_passes :
  forall b, In b [aapl; msft; nvda] ->
  exists content, post_score b noon = (Http200 content, noon).
Proof.
  intros b [<- | [<- | [<- | []]]]; eexists; vm_compute; reflexivity.
Qed.

Example post_score_reports_every_failure :
  post_score (Parsed (JObj [("rsi", JStr "high")])) noon
  = (Http422 [Missing "ticker"; Invalid "rsi"], noon).
Proof. reflexivity. Qed.

Example post_score_empty_body :
  post_score Empty noon = (Http422 [Missing "body"], noon).
Proof. reflexivity. Qed.

(** A member nested beyond the parser's limit turns a good request into
    a 400. *)
Example post_score_beyond_limits :
  post_score
    (received (fun j => (nesting j <=? 100)%nat)
       (JObj [("ticker", JStr "AAPL");
              ("volume", Nat.iter 100 (fun j => JArr [j]) JNull)])) noon
  = (Http400, noon).
Proof. vm_compute. reflexivity. Qed.

Example float_reads_booleans_and_refuses_huge_integers :
  as_float (JBool true) = Some 1 /\
  as_float (JInt 3) = Some 3 /\
  as_float (JInt (2 ^ 1024)) = None.
Proof. repeat split; vm_compute; reflexivity. Qed.

Example surrogates_are_not_encodable :
  utf8_encodable "AAPL" = true /\
  utf8_encodable (String "237"%char
                    (String "159"%char (String "191"%char EmptyString))) = true /\
  utf8_encodable (String "237"%char
                    (String "160"%char (String "128"%char EmptyString))) = false.
Proof. repeat split. Qed.

(** A numeral with three decimals denotes the float nearest to [k / 1000],
    which is not always the float product [k * 0.001]. *)
Example numeral_is_a_quotient :
  Py.decimal false 9 3 = 0.009 /\ 9 / 1000 = 0.009 /\
  (9 * 0.001 =? 0.009) = false.
Proof. repeat split; vm_compute; reflexivity. Qed.

(** ** Binary64 facts *)

Section Binary64.

Local Open Scope Z_scope.

Lemma digits2_pos_bounds (m : positive) :
  2 ^ (Zpos (digits2_pos m) - 1) <= Zpos m < 2 ^ Zpos (digits2_pos m).
Proof.
  induction m as [m IH | m IH |]; simpl digits2_pos.
  - rewrite Pos2Z.inj_succ.
    replace (Z.succ (Zpos (digits2_pos m)) - 1) with (Z.succ (Zpos (digits2_pos m) - 1)) by lia.
    rewrite !Z.pow_succ_r by lia. lia.
  - rewrite Pos2Z.inj_succ.
    replace (Z.succ (Zpos (digits2_pos m)) - 1) with (Z.succ (Zpos (digits2_pos m) - 1)) by lia.
    rewrite !Z.pow_succ_r by lia. lia.
  - simpl. lia.
Qed.

(** A valid finite float has at most 53 significant bits and an exponent
    in the binary64 range. *)
Lemma valid_finite_bounds (s : bool) (m : positive) (e : Z) :
  valid_binary (S754_finite s m e) = true ->
  Zpos m < 2 ^ 53 /\ -1074 <= e <= 971 /\
  (Zpos (digits2_pos m) = 53 \/ e = -1074).
Proof.
  unfold SpecFloat.valid_binary, bounded, canonical_mantissa, fexp, SpecFloat.emin, emax, prec.
  intros Hv. apply andb_true_iff in Hv as [Hc He].
  apply Z.eqb_eq in Hc. apply Z.leb_le in He.
  pose proof (digits2_pos_bounds m) as [_ Hm].
  assert (Hd : Zpos (digits2_pos m) <= 53) by lia.
  split.
  - eapply Z.lt_le_trans; [exact Hm|].
    apply Z.pow_le_mono_r; lia.
  - lia.
Qed.

Lemma Prim2SF_zero : Prim2SF 0 = S754_zero false.
Proof. reflexivity. Qed.

Lemma Prim2SF_one : Prim2SF 1 = S754_finite false 4503599627370496 (-52).
Proof. reflexivity. Qed.

(** The floats strictly between 0 and 1, as mantissa and exponent. *)
Lemma between_zero_one (y : float) :
  (0 <? y)%float = true -> (y <? 1)%float = true ->
  exists m e, Prim2SF y = S754_finite false m e /\ e < 0 /\ Zpos m < 2 ^ (- e).
Proof.
  rewrite !ltb_spec, Prim2SF_zero, Prim2SF_one.
  pose proof (Prim2SF_valid y) as Hv.
  destruct (Prim2SF y) as [s | s | | s m e]; try discriminate.
  - destruct s; discriminate.
  - destruct s; [discriminate|]. intros _.
    unfold SFltb, SFcompare. intros Hlt.
    apply valid_finite_bounds in Hv as (Hm & He & _).
    exists m, e. split; [reflexivity|].
    destruct (Z.compare_spec e (-52)) as [-> | Hlo | Hhi]; try discriminate.
    + split; [lia|].
      change (- -52) with 52.
      destruct (Pos.compare_cont Eq m 4503599627370496) eqn:Hc; try discriminate.
      exact Hc.
    + split; [lia|].
      eapply Z.lt_le_trans; [exact Hm|].
      apply Z.pow_le_mono_r; lia.
Qed.

End Binary64.

(** ** Rounding to decimals *)

Section Rounding.

Local Open Scope Z_scope.

Lemma div_half_even_upper (num den b : Z) :
  0 < den -> num <= b * den -> Py.div_half_even num den <= b.
Proof.
  intros Hden Hnum. unfold Py.div_half_even.
  pose proof (Z.div_mod num den ltac:(lia)) as Hdm.
  pose proof (Z.mod_pos_bound num den Hden) as Hr.
  set (q := num / den) in *. set (r := num mod den) in *.
  assert (Hq : q <= b) by nia.
  destruct (Z.compare_spec (2 * r) den) as [Heq | Hlt | Hgt].
  - destruct (Z.even q); nia.
  - exact Hq.
  - nia.
Qed.

Lemma div_half_even_lower (num den a : Z) :
  0 < den -> (2 * a - 1) * den < 2 * num -> a <= Py.div_half_even num den.
Proof.
  intros Hden Hnum. unfold Py.div_half_even.
  pose proof (Z.div_mod num den ltac:(lia)) as Hdm.
  pose proof (Z.mod_pos_bound num den Hden) as Hr.
  set (q := num / den) in *. set (r := num mod den) in *.
  assert (Hq : a - 1 <= q) by nia.
  destruct (Z.compare_spec (2 * r) den) as [Heq | Hlt | Hgt].
  - destruct (Z.even q); nia.
  - nia.
  - lia.
Qed.

(** Rounding a float of the open unit interval to three decimals yields
    one of the numerals 0.000, 0.001, ..., 1.000. *)
Lemma round_to_unit_interval (y : float) :
  (0 <? y)%float = true -> (y <? 1)%float = true ->
  exists k, 0 <= k <= 1000 /\ Py.round_to y 3 = Py.decimal false k 3.
Proof.
  intros H0 H1.
  destruct (between_zero_one y H0 H1) as (m & e & Hy & He & Hm).
  unfold Py.round_to. rewrite Hy.
  change (323 <? 3) with false. change (3 <? -308) with false. cbv iota.
  exists (Py.scaled_digits m e 3). split; [|reflexivity].
  unfold Py.scaled_digits.
  rewrite (Z.max_r e 0), (Z.max_l (- e) 0) by lia.
  change (10 ^ Z.max 3 0) with 1000. change (10 ^ Z.max (- (3)) 0) with 1.
  change (2 ^ 0) with 1.
  assert (Hp : 0 < 2 ^ (- e)) by (apply Z.pow_pos_nonneg; lia).
  split.
  - apply (div_half_even_lower _ _ 0); lia.
  - apply div_half_even_upper; lia.
Qed.

Lemma unit_numerals_table :
  forallb unit_numeral_ok (map Z.of_nat (seq 0 1001)) = true.
Proof. vm_compute. reflexivity. Qed.

Lemma unit_numeral (k : Z) :
  0 <= k <= 1000 -> unit_numeral_ok k = true.
Proof.
  intros Hk.
  pose proof unit_numerals_table as Ht.
  rewrite forallb_forall in Ht. apply Ht.
  apply in_map_iff. exists (Z.to_nat k). split; [lia|].
  apply in_seq. lia.
Qed.

(** Each of them lies in [0, 1], equals the quotient [k / 1000], is not
    below 0.95 from 0.950 on, and is left alone by rounding to three
    decimals again. *)
Lemma unit_numeral_facts (k : Z) :
  0 <= k <= 1000 ->
  let r := Py.decimal false k 3 in
  (0 <=? r)%float = true /\ (r <=? 1)%float = true /\
  (r =? r)%float = true /\
  (r =? Py.float_of_Z k / 1000)%float = true /\
  (950 <= k -> (0.95 <=? r)%float = true) /\
  is_infinity r = false /\
  Py.round_to r 3 = r.
Proof.
  intros Hk r. pose proof (unit_numeral k Hk) as Hok.
  unfold unit_numeral_ok in Hok. fold r in Hok.
  rewrite !andb_true_iff, orb_true_iff, negb_true_iff in Hok.
  destruct Hok as ((((((H0 & H1) & Hrefl) & Hq) & H95) & Hinf) & Hfix).
  repeat split; try assumption.
  - intros H950. destruct H95 as [Hlt | H95]; [|exact H95].
    apply Z.ltb_lt in Hlt. lia.
  - apply Leibniz.eqb_spec. exact Hfix.
Qed.

End Rounding.

(** ** Rounding inside binary64 addition

    What [SpecFloat] does when it normalises an exact sum: the mantissa is
    shifted right until it fits 53 bits, then rounded to nearest even. *)

Section Shift.

Local Open Scope Z_scope.

Lemma digits2_pos_lower (m : positive) (d : Z) :
  2 ^ d <= Zpos m -> d < Zpos (digits2_pos m).
Proof.
  intros Hd. pose proof (digits2_pos_bounds m) as [_ Hm].
  destruct (Z_lt_le_dec d (Zpos (digits2_pos m))) as [Hlt | Hge]; [exact Hlt|].
  exfalso.
  assert (2 ^ Zpos (digits2_pos m) <= 2 ^ d) by (apply Z.pow_le_mono_r; lia).
  lia.
Qed.

Lemma digits2_pos_upper (m : positive) (d : Z) :
  0 <= d -> Zpos m < 2 ^ d -> Zpos (digits2_pos m) <= d.
Proof.
  intros H0 Hd. pose proof (digits2_pos_bounds m) as [Hm _].
  destruct (Z_le_gt_dec (Zpos (digits2_pos m)) d) as [Hle | Hgt]; [exact Hle|].
  exfalso.
  assert (2 ^ d <= 2 ^ (Zpos (digits2_pos m) - 1)) by (apply Z.pow_le_mono_r; lia).
  lia.
Qed.

Lemma shr_1_m (r : shr_record) :
  0 <= shr_m r -> shr_m (shr_1 r) = shr_m r / 2.
Proof.
  destruct r as [m r s]. cbn [shr_m]. intros Hm. unfold shr_1.
  destruct m as [| p | p]; [reflexivity | | lia].
  destruct p as [p | p |]; cbn [shr_m].
  - rewrite Pos2Z.inj_xI. apply Z.div_unique with (r := 1); lia.
  - rewrite Pos2Z.inj_xO. apply Z.div_unique with (r := 0); lia.
  - reflexivity.
Qed.

Lemma iter_shr_1_m (p : positive) : forall r : shr_record,
  0 <= shr_m r -> shr_m (iter_pos shr_1 p r) = shr_m r / 2 ^ Zpos p.
Proof.
  induction p as [p IH | p IH |]; intros r Hr; cbn [iter_pos];
    try assert (Hp : 0 < 2 ^ Zpos p) by (apply Z.pow_pos_nonneg; lia).
  - assert (H1 : 0 <= shr_m (shr_1 r))
      by (rewrite shr_1_m by exact Hr; apply Z.div_pos; lia).
    assert (H2 : 0 <= shr_m (iter_pos shr_1 p (shr_1 r)))
      by (rewrite IH by exact H1; apply Z.div_pos; [exact H1 | apply Z.pow_pos_nonneg; lia]).
    rewrite IH by exact H2. rewrite IH by exact H1. rewrite shr_1_m by exact Hr.
    rewrite !Z.div_div by lia.
    f_equal. rewrite Pos2Z.inj_xI.
    replace (2 * Zpos p + 1) with (1 + Zpos p + Zpos p) by lia.
    rewrite !Z.pow_add_r by lia. change (2 ^ 1) with 2. ring.
  - assert (H1 : 0 <= shr_m (iter_pos shr_1 p r))
      by (rewrite IH by exact Hr; apply Z.div_pos; [exact Hr | apply Z.pow_pos_nonneg; lia]).
    rewrite IH by exact H1. rewrite IH by exact Hr.
    rewrite Z.div_div by lia.
    f_equal.
    replace (Zpos p~0) with (Zpos p + Zpos p) by lia.
    rewrite Z.pow_add_r by lia. reflexivity.
  - rewrite shr_1_m by exact Hr. reflexivity.
Qed.

(** A right shift by [n > 0] divides the mantissa by [2^n]. *)
Lemma shr_shift (r : shr_record) (e n : Z) :
  0 < n -> 0 <= shr_m r ->
  snd (shr r e n) = e + n /\ shr_m (fst (shr r e n)) = shr_m r / 2 ^ n.
Proof.
  intros Hn Hr. unfold shr. destruct n as [| p | p]; try lia.
  cbn [fst snd]. split; [reflexivity|]. apply iter_shr_1_m. exact Hr.
Qed.

Lemma shr_m_nonneg (r : shr_record) (e n : Z) :
  0 <= shr_m r -> 0 <= shr_m (fst (shr r e n)).
Proof.
  intros Hr. destruct (Z_lt_le_dec 0 n) as [Hn | Hn].
  - destruct (shr_shift r e n Hn Hr) as [_ ->].
    apply Z.div_pos; [exact Hr | apply Z.pow_pos_nonneg; lia].
  - unfold shr. destruct n; try lia; exact Hr.
Qed.

Lemma shr_record_of_loc_m (m : Z) (l : location) :
  shr_m (shr_record_of_loc m l) = m.
Proof. destruct l as [| []]; reflexivity. Qed.

Lemma round_nearest_even_bounds (m : Z) (l : location) :
  m <= round_nearest_even m l <= m + 1.
Proof.
  unfold round_nearest_even.
  destruct l as [| []]; try destruct (Z.even m); lia.
Qed.

Lemma fexp_normal (x : Z) :
  -1074 <= x - 53 -> fexp prec emax x = x - 53.
Proof. unfold fexp, SpecFloat.emin, emax, prec. lia. Qed.

(** Rounding a mantissa of more than 53 bits whose value lies in the
    normal range: the result is finite, its exponent is the one of the
    truncated mantissa or the next, and in the first case its mantissa is
    not below the truncated one. *)
Lemma binary_round_aux_large (s : bool) (m : positive) (e : Z) (l : location) :
  54 <= Zpos (digits2_pos m) ->
  -1074 <= Zpos (digits2_pos m) + e - 53 ->
  Zpos (digits2_pos m) + e <= 1023 ->
  exists m' e',
    binary_round_aux prec emax s (Zpos m) e l = S754_finite s m' e' /\
    Zpos (digits2_pos m) + e - 53 <= e' /\
    (e' = Zpos (digits2_pos m) + e - 53 ->
     Zpos m / 2 ^ (Zpos (digits2_pos m) - 53) <= Zpos m').
Proof.
  set (D := Zpos (digits2_pos m)). intros HD Hlo Hhi.
  pose proof (digits2_pos_bounds m) as [HmL HmU]. fold D in HmL, HmU.
  unfold binary_round_aux, shr_fexp. cbn [Zdigits2]. fold D.
  rewrite fexp_normal by lia.
  replace (D + e - 53 - e) with (D - 53) by lia.
  destruct (shr_shift (shr_record_of_loc (Zpos m) l) e (D - 53))
    as [He1 Hm1]; [lia | rewrite shr_record_of_loc_m; lia |].
  rewrite shr_record_of_loc_m in Hm1.
  destruct (shr (shr_record_of_loc (Zpos m) l) e (D - 53)) as [r1 e1].
  cbn [fst snd] in He1, Hm1.
  assert (Hpow : 2 ^ (D - 1) = 2 ^ (D - 53) * 2 ^ 52)
    by (rewrite <- Z.pow_add_r by lia; f_equal; lia).
  assert (Hpow' : 2 ^ D = 2 ^ (D - 53) * 2 ^ 53)
    by (rewrite <- Z.pow_add_r by lia; f_equal; lia).
  assert (Hk : 0 < 2 ^ (D - 53)) by (apply Z.pow_pos_nonneg; lia).
  assert (Hm0L : 2 ^ 52 <= shr_m r1)
    by (rewrite Hm1; apply Z.div_le_lower_bound; lia).
  assert (Hm0U : shr_m r1 < 2 ^ 53)
    by (rewrite Hm1; apply Z.div_lt_upper_bound; lia).
  pose proof (round_nearest_even_bounds (shr_m r1) (loc_of_shr_record r1)) as Hrne.
  set (m1 := round_nearest_even (shr_m r1) (loc_of_shr_record r1)) in *.
  assert (H52 : 0 < 2 ^ 52) by reflexivity.
  destruct m1 as [| p1 | p1] eqn:Hp1; try lia.
  cbn [Zdigits2 shr_record_of_loc].
  assert (HD1L : 52 < Zpos (digits2_pos p1)) by (apply digits2_pos_lower; lia).
  assert (HD1U : Zpos (digits2_pos p1) <= 54).
  { apply digits2_pos_upper; [lia|]. change (2 ^ 54) with (2 * 2 ^ 53). lia. }
  rewrite fexp_normal by lia.
  destruct (Z.eq_dec (Zpos (digits2_pos p1)) 53) as [H53 | H54].
  - rewrite H53. replace (53 + e1 - 53 - e1) with 0 by lia.
    cbn [shr shr_m].
    replace (e1 <=? emax - prec) with true
      by (symmetry; apply Z.leb_le; unfold emax, prec; lia).
    exists p1, e1. split; [reflexivity|]. split; [lia|].
    intros _. rewrite <- Hm1. lia.
  - assert (Zpos (digits2_pos p1) = 54) as -> by lia.
    replace (54 + e1 - 53 - e1) with 1 by lia.
    cbn [shr iter_pos shr_1 shr_m]. 
    destruct p1 as [p1 | p1 |]; cbn [shr_m];
      try (cbn in HD1L; lia);
      replace (e1 + 1 <=? emax - prec) with true
        by (symmetry; apply Z.leb_le; unfold emax, prec; lia);
      exists p1, (e1 + 1); (split; [reflexivity|]); (split; [lia|]); lia.
Qed.

End Shift.

(** ** The sum [1 + jitter] *)

Section OnePlusJitter.

Local Open Scope Z_scope.

Lemma iter_xO_pow (m d : positive) :
  Zpos (Pos.iter xO m d) = Zpos m * 2 ^ Zpos d.
Proof.
  induction d as [| d IH] using Pos.peano_ind.
  - cbn [Pos.iter]. rewrite Pos2Z.inj_xO. change (2 ^ 1) with 2. lia.
  - rewrite Pos.iter_succ, Pos2Z.inj_xO, IH, Pos2Z.inj_succ.
    rewrite Z.pow_succ_r by lia. ring.
Qed.

(** Adding to 1.0 a finite float of magnitude at most 0.05 (mantissa
    7205759403792794 at exponent -57): the sum is a positive finite float
    that is not below 0.95 (mantissa 8556839292003942 at exponent -53). *)
Lemma one_plus_small (sj : bool) (mj : positive) (ej : Z) :
  -1074 <= ej <= -57 -> Zpos mj < 2 ^ 53 ->
  (ej = -57 -> Zpos mj <= 7205759403792794) ->
  exists m e,
    SF64add (S754_finite false 4503599627370496 (-52)) (S754_finite sj mj ej)
    = S754_finite false m e /\
    -53 <= e /\ (e = -53 -> 8556839292003942 <= Zpos m).
Proof.
  intros Hej Hmj Hc.
  unfold SF64add, SFadd.
  rewrite (Z.min_r (-52) ej) by lia.
  unfold shl_align at 1 2. rewrite Z.sub_diag.
  destruct (ej - -52) as [| d | d] eqn:Hd; try lia.
  cbn [fst cond_Zopp]. rewrite iter_xO_pow.
  assert (Hdz : Zpos d = - 52 - ej) by lia.
  set (P := 2 ^ (Zpos d - 1)).
  assert (HP : 2 ^ Zpos d = 2 * P).
  { unfold P. rewrite <- Z.pow_succ_r by lia. f_equal. lia. }
  assert (HP16 : 16 <= P).
  { unfold P. change 16 with (2 ^ 4). apply Z.pow_le_mono_r; lia. }
  assert (HP32 : ej < -57 -> 32 <= P).
  { intros Hlt. unfold P. change 32 with (2 ^ 5). apply Z.pow_le_mono_r; lia. }
  rewrite HP.
  set (S := 4503599627370496 * (2 * P) + cond_Zopp sj (Zpos mj)).
  assert (HSL : 9007199254740992 * P - Zpos mj <= S) by (unfold S, cond_Zopp; destruct sj; lia).
  assert (HSU : S <= 9007199254740992 * P + Zpos mj) by (unfold S, cond_Zopp; destruct sj; lia).
  change (2 ^ 53) with 9007199254740992 in Hmj.
  clearbody S.
  destruct S as [| pS | pS]; try lia.
  unfold binary_normalize, binary_round.
  set (D := Zpos (digits2_pos pS)).
  assert (HDL : Zpos d + 51 < D).
  { apply digits2_pos_lower.
    replace (Zpos d + 51) with (Zpos d - 1 + 52) by lia.
    rewrite Z.pow_add_r by lia. fold P. change (2 ^ 52) with 4503599627370496. lia. }
  assert (HDU : D <= Zpos d + 54).
  { apply digits2_pos_upper; [lia|].
    replace (Zpos d + 54) with (Zpos d - 1 + 55) by lia.
    rewrite Z.pow_add_r by lia. fold P. change (2 ^ 55) with 36028797018963968. lia. }
  rewrite fexp_normal by lia.
  unfold shl_align.
  destruct (D + ej - 53 - ej) as [| k | k] eqn:Hk; try lia.
  destruct (binary_round_aux_large false pS ej loc_Exact) as (m & e & Hr & He & Hm);
    fold D; try lia.
  fold D in He, Hm.
  exists m, e. split; [exact Hr|]. split; [lia|].
  intros He53.
  assert (HD : D = Zpos d + 52) by lia.
  specialize (Hm ltac:(lia)).
  replace (D - 53) with (Zpos d - 1) in Hm by lia. fold P in Hm.
  eapply Z.le_trans; [|exact Hm].
  apply Z.div_le_lower_bound; [lia|].
  destruct (Z.eq_dec ej (-57)) as [E57 | N57].
  - specialize (Hc E57). lia.
  - specialize (HP32 ltac:(lia)). lia.
Qed.

End OnePlusJitter.

Section JitterRange.

Local Open Scope Z_scope.

Lemma Prim2SF_jitter_high :
  Prim2SF 0.05 = S754_finite false 7205759403792794 (-57).
Proof. reflexivity. Qed.

Lemma Prim2SF_jitter_low :
  Prim2SF (-0.05) = S754_finite true 7205759403792794 (-57).
Proof. reflexivity. Qed.

(** A jitter in [-0.05, 0.05] is a zero or a finite float of magnitude at
    most 0.05. *)
Lemma jitter_range_cases (j : float) :
  (-0.05 <=? j)%float = true -> (j <=? 0.05)%float = true ->
  (exists s, Prim2SF j = S754_zero s) \/
  (exists s m e, Prim2SF j = S754_finite s m e /\
     -1074 <= e <= -57 /\ Zpos m < 2 ^ 53 /\
     (e = -57 -> Zpos m <= 7205759403792794)).
Proof.
  rewrite !leb_spec, Prim2SF_jitter_high, Prim2SF_jitter_low.
  pose proof (Prim2SF_valid j) as Hv.
  destruct (Prim2SF j) as [s | s | | s m e]; try discriminate.
  - intros _ _. left. exists s. reflexivity.
  - destruct s; discriminate.
  - apply valid_finite_bounds in Hv as (Hm & He & _).
    unfold SFleb, SFcompare. intros Hlo Hhi. right.
    exists s, m, e. split; [reflexivity|].
    assert (He57 : e <= -57).
    { destruct s.
      - destruct (Z.compare_spec (-57) e) as [<- | Hlt | Hgt];
          try discriminate; clear Hlo Hhi; lia.
      - destruct (Z.compare_spec e (-57)) as [-> | Hlt | Hgt];
          try discriminate; clear Hlo Hhi; lia. }
    split; [clear Hlo Hhi; lia|]. split; [exact Hm|].
    intros ->. clear Hm He He57.
    change (Pos.compare_cont Eq m 7205759403792794 <> Gt).
    destruct s.
    + rewrite Z.compare_refl, Pos.compare_cont_antisym in Hlo.
      change (CompOpp Eq) with Eq in Hlo.
      destruct (Pos.compare_cont Eq m 7205759403792794); discriminate.
    + rewrite Z.compare_refl in Hhi.
      destruct (Pos.compare_cont Eq m 7205759403792794); discriminate.
Qed.

(** [1 + jitter] is a finite float in [0.95, 1) or a float that is not
    below 1. *)
Lemma one_plus_jitter (j : float) :
  (-0.05 <=? j)%float = true -> (j <=? 0.05)%float = true ->
  exists m e, Prim2SF (1 + j) = S754_finite false m e /\
    ((e = -53 /\ 8556839292003942 <= Zpos m) \/
     (-52 <= e /\ 4503599627370496 <= Zpos m)).
Proof.
  intros Hlo Hhi.
  pose proof (Prim2SF_valid (1 + j)) as Hv.
  rewrite add_spec, Prim2SF_one in *.
  destruct (jitter_range_cases j Hlo Hhi)
    as [(s & Hj) | (s & mj & ej & Hj & Hej & Hmj & Hc)];
    rewrite Hj in *.
  - exists 4503599627370496%positive, (-52).
    split; [destruct s; reflexivity|]. right. lia.
  - destruct (one_plus_small s mj ej Hej Hmj Hc) as (m & e & Hr & He & Hm).
    rewrite Hr in *. exists m, e. split; [reflexivity|].
    apply valid_finite_bounds in Hv as (_ & _ & Hd).
    destruct (Z.eq_dec e (-53)) as [E | N]; [left; auto|].
    right. split; [lia|].
    destruct Hd as [Hd | Hd]; [|lia].
    pose proof (digits2_pos_bounds m) as [HL _]. rewrite Hd in HL.
    exact HL.
Qed.

End JitterRange.

(** ** Order and NaN *)

Section Order.

Lemma SFcompare_antisym (a b : spec_float) :
  SFcompare b a = option_map CompOpp (SFcompare a b).
Proof.
  destruct a as [[] | [] | | [] m e], b as [[] | [] | | [] m' e'];
    try reflexivity; unfold SFcompare, option_map; f_equal;
    rewrite (Z.compare_antisym e e');
    destruct (Z.compare e e'); try reflexivity; cbn [CompOpp];
    rewrite (Pos.compare_cont_antisym m m' Eq); reflexivity.
Qed.

Lemma SFcompare_none (a b : spec_float) :
  SFcompare a b = None -> a = S754_nan \/ b = S754_nan.
Proof.
  destruct a as [[] | [] | | [] m e], b as [[] | [] | | [] m' e'];
    try discriminate; auto.
Qed.

(** Two ordered floats are below, above or equal to each other. *)
Lemma ltb_trichotomy (a b : float) :
  Prim2SF a <> S754_nan -> Prim2SF b <> S754_nan ->
  (a <? b) = false -> (b <? a) = false -> (a =? b) = true.
Proof.
  rewrite !ltb_spec, FloatAxioms.eqb_spec. unfold SFltb, SFeqb.
  rewrite (SFcompare_antisym (Prim2SF a) (Prim2SF b)).
  intros Ha Hb.
  destruct (SFcompare (Prim2SF a) (Prim2SF b)) as [[] |] eqn:Hc;
    cbn; try discriminate; try reflexivity.
  destruct (SFcompare_none _ _ Hc); contradiction.
Qed.

Lemma ltb_asym (a b : float) : (a <? b) = true -> (b <? a) = false.
Proof.
  rewrite !ltb_spec. unfold SFltb.
  rewrite (SFcompare_antisym (Prim2SF a) (Prim2SF b)).
  destruct (SFcompare (Prim2SF a) (Prim2SF b)) as [[] |];
    cbn; try discriminate; reflexivity.
Qed.

Lemma ltb_not_nan_l (a b : float) :
  (a <? b) = true -> Prim2SF a <> S754_nan.
Proof. rewrite ltb_spec. intros H E. rewrite E in H. discriminate. Qed.

Lemma ltb_not_nan_r (a b : float) :
  (a <? b) = true -> Prim2SF b <> S754_nan.
Proof.
  rewrite ltb_spec. intros H E. rewrite E in H.
  destruct (Prim2SF a) as [[] | [] | | [] m e]; discriminate.
Qed.

Local Open Scope Z_scope.

Lemma binary_round_aux_not_nan (s : bool) (m e : Z) (l : location) :
  0 <= m -> binary_round_aux prec emax s m e l <> S754_nan.
Proof.
  intros Hm. unfold binary_round_aux, shr_fexp.
  pose proof (shr_m_nonneg (shr_record_of_loc m l) e
                (fexp prec emax (Zdigits2 m + e) - e)) as H1.
  rewrite shr_record_of_loc_m in H1. specialize (H1 Hm).
  destruct (shr (shr_record_of_loc m l) e _) as [r1 e1]. cbn [fst] in H1.
  pose proof (round_nearest_even_bounds (shr_m r1) (loc_of_shr_record r1)) as Hr.
  set (m1 := round_nearest_even _ _) in *.
  pose proof (shr_m_nonneg (shr_record_of_loc m1 loc_Exact) e1
                (fexp prec emax (Zdigits2 m1 + e1) - e1)) as H2.
  rewrite shr_record_of_loc_m in H2. specialize (H2 ltac:(lia)).
  destruct (shr (shr_record_of_loc m1 loc_Exact) e1 _) as [r2 e2].
  cbn [fst] in H2.
  destruct (shr_m r2); try lia; try discriminate.
  destruct (e2 <=? emax - prec); discriminate.
Qed.

Lemma binary_normalize_not_nan (m e : Z) (szero : bool) :
  binary_normalize prec emax m e szero <> S754_nan.
Proof.
  unfold binary_normalize, binary_round.
  destruct m as [| p | p]; try discriminate;
    destruct (shl_align p e _) as [mz ez];
    apply binary_round_aux_not_nan; lia.
Qed.

(** Adding a finite float to anything but a NaN does not give a NaN. *)
Lemma add_finite_not_nan (a j : float) :
  Prim2SF a <> S754_nan ->
  (forall s, Prim2SF j <> S754_infinity s) -> Prim2SF j <> S754_nan ->
  Prim2SF (a + j) <> S754_nan.
Proof.
  rewrite add_spec. unfold SF64add, SFadd.
  destruct (Prim2SF a) as [sa | sa | | sa ma ea],
           (Prim2SF j) as [sj | sj | | sj mj ej];
    intros Ha Hinf Hj; try contradiction; try discriminate;
    try (exfalso; apply (Hinf sj); reflexivity).
  - destruct sa, sj; discriminate.
  - apply binary_normalize_not_nan.
Qed.

End Order.

(** ** The clamp and the rounded score *)

Section Clamp.

Lemma float_of_Z_0 : Py.float_of_Z 0 = 0.
Proof. reflexivity. Qed.

Lemma float_of_Z_1 : Py.float_of_Z 1 = 1.
Proof. reflexivity. Qed.

(** [min(1, max(0, x))] on a float: the [int] 0 unless [x] is positive,
    the [int] 1 unless [x] is below 1, and [x] itself otherwise. *)
Lemma clamp_cases (x : float) :
  let c := Py.min (Py.PyInt 1) (Py.max (Py.PyInt 0) (Py.PyFloat x)) in
  ((0 <? x) = false /\ c = Py.PyInt 0) \/
  ((0 <? x) = true /\ (x <? 1) = false /\ c = Py.PyInt 1) \/
  ((0 <? x) = true /\ (x <? 1) = true /\ c = Py.PyFloat x).
Proof.
  unfold Py.max, Py.min, Py.lt, Py.to_float. rewrite float_of_Z_0.
  destruct (0 <? x) eqn:H0.
  - rewrite float_of_Z_1. destruct (x <? 1) eqn:H1; auto.
  - left. split; reflexivity.
Qed.

Lemma add_float (b : Py.num) (j : float) :
  Py.add b (Py.PyFloat j) = Py.PyFloat (Py.to_float b + j).
Proof. destruct b; reflexivity. Qed.

(** The value [score] reports is the [int] 0, the [int] 1, or a numeral
    with three decimals. *)
Lemma score_value_cases (b : Py.num) (j : float) :
  score_value b j = inr (Py.PyInt 0) \/
  score_value b j = inr (Py.PyInt 1) \/
  exists k, (0 <= k <= 1000)%Z /\
    score_value b j = inr (Py.PyFloat (Py.decimal false k 3)).
Proof.
  unfold score_value. rewrite add_float.
  destruct (clamp_cases (Py.to_float b + j)) as [(_ & ->) | [(_ & _ & ->) | (H0 & H1 & ->)]].
  - left. reflexivity.
  - right. left. reflexivity.
  - right. right.
    destruct (round_to_unit_interval _ H0 H1) as (k & Hk & Hr).
    exists k. split; [exact Hk|].
    unfold Py.round. rewrite Hr.
    destruct (unit_numeral_facts k Hk) as (_ & _ & _ & _ & _ & Hinf & _).
    rewrite Hinf. reflexivity.
Qed.

End Clamp.

(** ** Running the handler *)

Section Run.

Context {World : Type} `{Runtime World}.

Lemma truediv_nonzero (x y : float) :
  (y =? 0) = false -> Py.truediv x y = inr (x / y).
Proof. intros Hy. unfold Py.truediv. rewrite Hy. reflexivity. Qed.

(** No division of the handler raises: the divisors are 50, 100, 2, 3. *)
Lemma base_risk_eq (features : Features) :
  base_risk features =
  inr (Py.min (Py.PyInt 1)
         (Py.PyFloat ((abs (rsi features - 50) / 50 + pe features / 100
                       + (1 - (sentiment features + 1) / 2)) / 3))).
Proof.
  unfold base_risk, rsi_term, pe_term, sentiment_term.
  rewrite !truediv_nonzero by reflexivity. reflexivity.
Qed.

Lemma score_run (features : Features) (w : World) (b v : Py.num) :
  base_risk features = inr b ->
  score_value b (drawn_jitter w) = inr v ->
  score features w =
  (inr {| r_ticker := ticker features;
          risk_score := v;
          timestamp := clock_reading w;
          latency_ms := drawn_latency w;
          model_version := "v0.1" |},
   final_world w).
Proof.
  intros Hb Hv.
  unfold score, bind, lift, call, ret, drawn_jitter, clock_reading,
    drawn_latency, final_world in *.
  rewrite Hb.
  destruct (random_uniform (-0.05) 0.05 w) as [j w1]. cbn [fst snd] in *.
  rewrite Hv.
  destruct (time_time w1) as [t w2]. cbn [fst snd].
  destruct (random_randint 10 30 w2) as [l w3]. reflexivity.
Qed.

(** The handler always returns, and what it returns is determined by the
    request and the three runtime results. *)
Lemma score_returns (features : Features) (w : World) :
  exists b v,
    base_risk features = inr b /\
    score_value b (drawn_jitter w) = inr v /\
    score features w =
    (inr {| r_ticker := ticker features;
            risk_score := v;
            timestamp := clock_reading w;
            latency_ms := drawn_latency w;
            model_version := "v0.1" |},
     final_world w).
Proof.
  pose proof (base_risk_eq features) as Hb.
  set (b := Py.min _ _) in Hb. exists b.
  destruct (score_value_cases b (drawn_jitter w))
    as [Hv | [Hv | (k & _ & Hv)]];
    eexists; (split; [exact Hb|]); (split; [exact Hv|]);
    eapply score_run; eassumption.
Qed.

End Run.

Section FullRisk.

(** With [base_risk = 1] and a jitter in range the reported score lies
    in [0.95, 1]. *)
Lemma score_value_full_risk (j : float) :
  (-0.05 <=? j) = true -> (j <=? 0.05) = true ->
  exists v, score_value (Py.PyInt 1) j = inr v /\
    Py.le (Py.PyFloat 0.95) v = true /\ Py.le v (Py.PyFloat 1.0) = true.
Proof.
  intros Hlo Hhi.
  destruct (one_plus_jitter j Hlo Hhi) as (m & e & Hy & Hcases).
  unfold score_value. rewrite add_float. cbn [Py.to_float].
  rewrite float_of_Z_1.
  destruct (clamp_cases (1 + j)) as [(H0 & _) | [(_ & _ & ->) | (_ & H1 & ->)]].
  - rewrite ltb_spec, Prim2SF_zero, Hy in H0. discriminate.
  - exists (Py.PyInt 1). repeat split; reflexivity.
  - pose proof (Prim2SF_valid (1 + j)) as Hv. rewrite Hy in Hv.
    apply valid_finite_bounds in Hv as (Hm & _ & _).
    rewrite ltb_spec, Hy, Prim2SF_one in H1.
    unfold SFltb, SFcompare in H1.
    destruct Hcases as [(-> & HmL) | (He & HmL)].
    + clear H1.
      set (k := Py.scaled_digits m (-53) 3).
      assert (Hk : (950 <= k <= 1000)%Z).
      { unfold k, Py.scaled_digits.
        change (2 ^ Z.max (-53) 0)%Z with 1%Z.
        change (10 ^ Z.max 3 0)%Z with 1000%Z.
        change (2 ^ Z.max (- -53) 0 * 10 ^ Z.max (- (3)) 0)%Z
          with 9007199254740992%Z.
        change (2 ^ 53)%Z with 9007199254740992%Z in Hm.
        split.
        - apply div_half_even_lower; lia.
        - apply div_half_even_upper; lia. }
      assert (Hr : Py.round_to (1 + j) 3 = Py.decimal false k 3).
      { unfold Py.round_to. rewrite Hy. reflexivity. }
      destruct (unit_numeral_facts k ltac:(lia))
        as (_ & Hle1 & _ & _ & H95 & Hinf & _).
      specialize (H95 ltac:(lia)).
      exists (Py.PyFloat (Py.decimal false k 3)).
      unfold Py.round. rewrite Hr, Hinf.
      repeat split; assumption.
    + exfalso.
      destruct (Z.compare_spec e (-52)) as [-> | Hlt | Hgt];
        try discriminate; [|lia].
      destruct (Pos.compare_cont Eq m 4503599627370496) eqn:Hc;
        try discriminate.
      assert (Hlt : (Zpos m < 4503599627370496)%Z) by exact Hc.
      revert HmL Hlt. clear. lia.
Qed.

End FullRisk.

(** ** The handler against the formula *)

Section Formula.

Lemma eqb_zero_cases (x : float) :
  (x =? 0) = true -> exists s, Prim2SF x = S754_zero s.
Proof.
  rewrite FloatAxioms.eqb_spec, Prim2SF_zero. unfold SFeqb, SFcompare.
  destruct (Prim2SF x) as [s | [] | | [] m e]; try discriminate.
  intros _. exists s. reflexivity.
Qed.

Lemma eqb_one (x : float) : (x =? 1) = true -> x = 1.
Proof.
  rewrite FloatAxioms.eqb_spec, Prim2SF_one. unfold SFeqb, SFcompare.
  intros H. apply Prim2SF_inj. rewrite Prim2SF_one. revert H.
  destruct (Prim2SF x) as [[] | [] | | [] m e]; try discriminate.
  destruct (Z.compare_spec e (-52)) as [-> | _ | _]; try discriminate.
  destruct (Pos.compare_cont Eq m 4503599627370496) eqn:Hc; try discriminate.
  intros _. apply Pos.compare_eq in Hc. rewrite Hc. reflexivity.
Qed.

(** On an ordered float the handler's [round(min(1, max(0, x)), 3)] is
    the specified [round(clamp(x, 0, 1), 3)]. *)
Lemma clamp_round_agree (x : float) :
  Prim2SF x <> S754_nan ->
  exists v,
    Py.round (Py.min (Py.PyInt 1) (Py.max (Py.PyInt 0) (Py.PyFloat x))) 3
    = inr v /\
    Py.eq v (Py.PyFloat (Py.round_to (Spec.clamp x 0 1) 3)) = true.
Proof.
  intros Hx. unfold Spec.clamp.
  assert (H01 : Prim2SF 0 <> S754_nan) by discriminate.
  assert (H11 : Prim2SF 1 <> S754_nan) by discriminate.
  destruct (clamp_cases x) as [(H0 & ->) | [(H0 & H1 & ->) | (H0 & H1 & ->)]].
  - exists (Py.PyInt 0). split; [reflexivity|].
    destruct (x <? 0) eqn:Hn; [reflexivity|].
    pose proof (ltb_trichotomy x 0 Hx H01 Hn H0) as Hz.
    destruct (eqb_zero_cases x Hz) as (s & Hs).
    assert (H1x : (1 <? x) = false).
    { rewrite ltb_spec, Hs, Prim2SF_one. reflexivity. }
    rewrite H1x. unfold Py.round_to. rewrite Hs.
    unfold Py.eq, Py.to_float.
    rewrite float_of_Z_0, FloatAxioms.eqb_spec, Hs, Prim2SF_zero.
    reflexivity.
  - exists (Py.PyInt 1). split; [reflexivity|].
    rewrite (ltb_asym 0 x H0).
    destruct (1 <? x) eqn:H1x; [reflexivity|].
    rewrite (eqb_one x (ltb_trichotomy x 1 Hx H11 H1 H1x)). reflexivity.
  - rewrite (ltb_asym 0 x H0), (ltb_asym x 1 H1).
    destruct (round_to_unit_interval x H0 H1) as (k & Hk & Hr).
    destruct (unit_numeral_facts k Hk) as (_ & _ & Hrefl & _ & _ & Hinf & _).
    exists (Py.PyFloat (Py.decimal false k 3)).
    unfold Py.round. rewrite Hr, Hinf. split; [reflexivity|]. exact Hrefl.
Qed.

Lemma jitter_finite (j : float) :
  (-0.05 <=? j) = true -> (j <=? 0.05) = true ->
  (forall s, Prim2SF j <> S754_infinity s) /\ Prim2SF j <> S754_nan.
Proof.
  intros Hlo Hhi.
  destruct (jitter_range_cases j Hlo Hhi) as [(s & ->) | (s & m & e & -> & _)];
    split; intros; discriminate.
Qed.

Lemma base_risk_spec (features : Features) :
  exists b, base_risk features = inr b /\
    Py.to_float b = Spec.base_risk features /\
    Prim2SF (Py.to_float b) <> S754_nan.
Proof.
  rewrite base_risk_eq. eexists. split; [reflexivity|].
  unfold Py.min, Py.lt, Spec.base_risk, Spec.min, Spec.rsi_term,
    Spec.pe_term, Spec.sentiment_term, Py.to_float.
  rewrite float_of_Z_1.
  destruct (_ <? 1) eqn:Hlt.
  - split; [reflexivity|]. exact (ltb_not_nan_l _ _ Hlt).
  - rewrite float_of_Z_1. split; [reflexivity | discriminate].
Qed.

End Formula.

(** * The claims *)

Section Claims.

Context {World : Type} `{Runtime World}.

Lemma jitter_in_range_iff (j : float) :
  jitter_in_range j = true <-> (-0.05 <=? j) = true /\ (j <=? 0.05) = true.
Proof. unfold jitter_in_range. apply andb_true_iff. Qed.

Lemma score_value_in_unit_interval (b v : Py.num) (j : float) :
  score_value b j = inr v -> in_unit_interval v = true.
Proof.
  intros Hv.
  destruct (score_value_cases b j) as [E | [E | (k & Hk & E)]];
    rewrite E in Hv; injection Hv as <-; try reflexivity.
  destruct (unit_numeral_facts k Hk) as (H0 & H1 & _).
  unfold in_unit_interval, Py.le, Py.to_float.
  rewrite float_of_Z_0, float_of_Z_1, H0, H1. reflexivity.
Qed.

(** C1. For a jitter drawn in [-0.05, 0.05] the handler computes the
    specified formula: the three terms and [base_risk] are the specified
    ones, and the reported [risk_score] equals
    [round(clamp(base_risk + jitter, 0, 1), 3)], the clamp being applied
    before the rounding. *)
Theorem score_computes_formula (features : Features) (w : World) :
  jitter_in_range (drawn_jitter w) = true ->
  rsi_term features = inr (Spec.rsi_term features) /\
  pe_term features = inr (Spec.pe_term features) /\
  sentiment_term features = inr (Spec.sentiment_term features) /\
  exists b r,
    base_risk features = inr b /\
    Py.to_float b = Spec.base_risk features /\
    fst (score features w) = inr r /\
    Py.eq (risk_score r)
      (Py.PyFloat (Spec.risk_score features (drawn_jitter w))) = true.
Proof.
  intros Hj. apply jitter_in_range_iff in Hj as [Hlo Hhi].
  repeat split;
    try (unfold rsi_term, pe_term, sentiment_term;
         rewrite ?truediv_nonzero by reflexivity; reflexivity).
  destruct (base_risk_spec features) as (b & Hb & Hbs & Hnan).
  destruct (jitter_finite _ Hlo Hhi) as [Hinf Hjn].
  pose proof (add_finite_not_nan _ _ Hnan Hinf Hjn) as Hx.
  destruct (clamp_round_agree _ Hx) as (v & Hv & Heq).
  assert (Hsv : score_value b (drawn_jitter w) = inr v)
    by (unfold score_value; rewrite add_float; exact Hv).
  exists b, {| r_ticker := ticker features; risk_score := v;
               timestamp := clock_reading w; latency_ms := drawn_latency w;
               model_version := "v0.1" |}.
  split; [exact Hb|]. split; [exact Hbs|].
  rewrite (score_run features w b v Hb Hsv). split; [reflexivity|].
  cbn [risk_score]. unfold Spec.risk_score. rewrite <- Hbs. exact Heq.
Qed.

(** C2. For every request and every jitter in [-0.05, 0.05] the reported
    [risk_score] lies in [0, 1]. *)
Theorem risk_score_in_unit_interval (features : Features) (w : World) :
  jitter_in_range (drawn_jitter w) = true ->
  exists r, fst (score features w) = inr r /\
    in_unit_interval (risk_score r) = true.
Proof.
  intros _.
  destruct (score_returns features w) as (b & v & _ & Hv & Hs).
  rewrite Hs. eexists. split; [reflexivity|].
  cbn [risk_score]. exact (score_value_in_unit_interval _ _ _ Hv).
Qed.

(** C4. [peg] and [atr] are accepted but never influence the output: two
    requests that agree on [ticker], [rsi], [pe] and [sentiment], whatever
    their [peg] and [atr], get identical responses (and leave identical
    worlds) when served from the same world, that is with the same jitter,
    clock reading and latency draw. *)
Theorem peg_atr_do_not_matter (features other : Features) (w : World) :
  ticker features = ticker other ->
  rsi features = rsi other ->
  pe features = pe other ->
  sentiment features = sentiment other ->
  score features w = score other w.
Proof.
  destruct features as [t r p g s a], other as [t' r' p' g' s' a'].
  cbn [ticker rsi pe sentiment].
  intros -> -> -> ->.
  unfold score, base_risk, rsi_term, pe_term, sentiment_term.
  reflexivity.
Qed.

(** C5. For [rsi = 100], [pe = 100], [sentiment = -1] the three terms are
    1, [base_risk] is [min(1, 1) = 1], and for every jitter in
    [-0.05, 0.05] the reported [risk_score] lies in [0.95, 1.0]. *)
Theorem full_risk_score_range (t : string) (g a : float) (w : World) :
  let features := {| ticker := t; rsi := 100; pe := 100; peg := g;
                     sentiment := -1; atr := a |} in
  jitter_in_range (drawn_jitter w) = true ->
  rsi_term features = inr 1 /\
  pe_term features = inr 1 /\
  sentiment_term features = inr 1 /\
  base_risk features = inr (Py.PyInt 1) /\
  exists r, fst (score features w) = inr r /\
    Py.le (Py.PyFloat 0.95) (risk_score r) = true /\
    Py.le (risk_score r) (Py.PyFloat 1.0) = true.
Proof.
  intros features Hj. apply jitter_in_range_iff in Hj as [Hlo Hhi].
  assert (Hb : base_risk features = inr (Py.PyInt 1)) by reflexivity.
  repeat split; try reflexivity.
  destruct (score_value_full_risk _ Hlo Hhi) as (v & Hv & H95 & H1).
  rewrite (score_run features w _ v Hb Hv).
  eexists. split; [reflexivity|]. split; assumption.
Qed.

(** C7. The reported [risk_score] has at most three decimals: it is the
    [int] 0 or 1 or the float that a numeral [k / 1000] with
    [0 <= k <= 1000] denotes, it equals [k / 1000], and rounding it to
    three decimals again returns it unchanged. *)
Theorem risk_score_three_decimals (features : Features) (w : World) :
  exists r k, fst (score features w) = inr r /\
    (0 <= k <= 1000)%Z /\
    Py.eq (risk_score r) (Py.PyFloat (Py.float_of_Z k / 1000)) = true /\
    Py.round (risk_score r) 3 = inr (risk_score r) /\
    (risk_score r = Py.PyInt 0 \/ risk_score r = Py.PyInt 1 \/
     risk_score r = Py.PyFloat (Py.decimal false k 3)).
Proof.
  destruct (score_returns features w) as (b & v & _ & Hv & Hs).
  rewrite Hs. cbn [fst].
  destruct (score_value_cases b (drawn_jitter w)) as [E | [E | (k & Hk & E)]];
    rewrite E in Hv; injection Hv as <-.
  - eexists; exists 0%Z. split; [reflexivity|]. cbn [risk_score].
    split; [lia|]. repeat split; auto.
  - eexists; exists 1000%Z. split; [reflexivity|]. cbn [risk_score].
    split; [lia|]. repeat split; auto.
  - eexists; exists k. split; [reflexivity|]. cbn [risk_score].
    split; [exact Hk|].
    destruct (unit_numeral_facts k Hk) as (_ & _ & _ & Hq & _ & Hinf & Hfix).
    split; [exact Hq|]. split; [|auto].
    unfold Py.round. rewrite Hfix, Hinf. reflexivity.
Qed.

(** C8. Given the documented range of [random.randint], [latency_ms] is
    an integer in [10, 30]; it is the value drawn and is the same for any
    two requests served from the same world. *)
Theorem latency_in_range (features other : Features) (w : World) :
  randint_in_range ->
  exists r r', fst (score features w) = inr r /\
    fst (score other w) = inr r' /\
    (10 <= latency_ms r <= 30)%Z /\
    latency_ms r = drawn_latency w /\
    latency_ms r' = latency_ms r.
Proof.
  intros Hrange.
  destruct (score_returns features w) as (b & v & _ & _ & Hs).
  destruct (score_returns other w) as (b' & v' & _ & _ & Hs').
  rewrite Hs, Hs'. do 2 eexists. repeat split; cbn [latency_ms].
  - apply Hrange. lia.
  - apply Hrange. lia.
Qed.

(** C9. The response echoes the request's [ticker] unchanged and its
    [model_version] is the constant ["v0.1"]. *)
Theorem ticker_echoed_version_constant (features : Features) (w : World) :
  exists r, fst (score features w) = inr r /\
    r_ticker r = ticker features /\ model_version r = "v0.1".
Proof.
  destruct (score_returns features w) as (b & v & _ & _ & Hs).
  rewrite Hs. eexists. repeat split.
Qed.

(** C10. The handler is total: for every ticker and arbitrary float
    values of the five numeric fields no division raises (the divisors
    are 50, 100, 2 and 3), the handler returns a response, and its
    [risk_score] lies in [0, 1] whatever the sign of [base_risk] and
    whatever the jitter. *)
Theorem score_total (features : Features) (w : World) :
  rsi_term features = inr (abs (rsi features - 50) / 50) /\
  pe_term features = inr (pe features / 100) /\
  sentiment_term features = inr (1 - (sentiment features + 1) / 2) /\
  exists b r,
    base_risk features = inr b /\
    score features w = (inr r, final_world w) /\
    in_unit_interval (risk_score r) = true.
Proof.
  repeat split;
    try (unfold rsi_term, pe_term, sentiment_term;
         rewrite ?truediv_nonzero by reflexivity; reflexivity).
  destruct (score_returns features w) as (b & v & Hb & Hv & Hs).
  exists b. eexists. split; [exact Hb|]. split; [exact Hs|].
  cbn [risk_score]. exact (score_value_in_unit_interval _ _ _ Hv).
Qed.

End Claims.

Section RequestClaims.

Context `{Decoders} {World : Type} `{Runtime World}.

Lemma field_cases {A : Type} (decode : json -> option A)
    (default : option A) (key : string) (members : list (string * json)) :
  (exists a, field decode default key members = inr a /\
     parses decode (match default with None => true | Some _ => false end)
       (member key members) = true /\
     match member key members with
     | Some v => decode v = Some a
     | None => default = Some a
     end) \/
  (exists e, field decode default key members = inl e /\
     parses decode (match default with None => true | Some _ => false end)
       (member key members) = false).
Proof.
  unfold field, parses.
  destruct (member key members) as [v |].
  - destruct (decode v) as [a |]; [left | right]; eauto.
  - destruct default as [a |]; [left | right]; eauto.
Qed.




(** The reported score always renders: it is an [int] or a finite float. *)
Lemma score_value_renders (b v : Py.num) (j : float) :
  score_value b j = inr v -> exists score_json, num_json v = Some score_json.
Proof.
  intros Hv.
  destruct (score_value_cases b j) as [E | [E | (k & Hk & E)]];
    rewrite E in Hv; injection Hv as <-; cbn [num_json]; eauto.
  destruct (unit_numeral_facts k Hk) as (_ & _ & Hrefl & _ & _ & Hinf & _).
  unfold is_finite, is_nan. rewrite Hrefl, Hinf. cbn. eauto.
Qed.

(** The answer to a validated request: the handler returns, its score
    renders, and the response is refused only for its ticker or its
    timestamp. *)
Lemma post_score_validated (b : body) (features : Features) (w : World) :
  validate b = inr features ->
  exists r score_json,
    fst (score features w) = inr r /\
    num_json (risk_score r) = Some score_json /\
    post_score b w
    = (if utf8_encodable (ticker features) && is_finite (clock_reading w)
       then Http200 (JObj [("ticker", JStr (ticker features));
                           ("risk_score", score_json);
                           ("timestamp", JFloat (clock_reading w));
                           ("latency_ms", JInt (drawn_latency w));
                           ("model_version", JStr "v0.1")])
       else Http500,
       final_world w).
Proof.
  intros Hval.
  assert (Hp : post_score b w
               = match score features w with
                 | (inr content, w') =>
                     match render content with
                     | Some rendered => (Http200 rendered, w')
                     | None => (Http500, w')
                     end
                 | (inl _, w') => (Http500, w')
                 end).
  { unfold post_score. destruct b; try discriminate Hval.
    rewrite Hval. reflexivity. }
  rewrite Hp.
  destruct (score_returns features w) as (b' & v & _ & Hv & ->).
  destruct (score_value_renders _ _ _ Hv) as (sj & Hsj).
  eexists. exists sj. split; [reflexivity|]. split; [exact Hsj|].
  unfold render.
  cbn [risk_score timestamp r_ticker latency_ms model_version fst].
  change (utf8_encodable "v0.1") with true.
  rewrite Hsj. cbn [num_json].
  destruct (utf8_encodable (ticker features)); cbn [andb]; [|reflexivity].
  destruct (is_finite (clock_reading w)); reflexivity.
Qed.



(** C6. A validated request takes, for each numeric field it omits, the
    documented default (50, 20, 1.0, 0.0, 1.0) and otherwise the decoded
    value. For the all-default input [base_risk] is
    [(0 + 0.2 + 0.5) / 3 = 0.2333...], and with the jitter at 0 the
    reported [risk_score] is 0.233. *)
Theorem defaults_and_default_score
    (members : list (string * json)) (features : Features) (w : World) :
  validate (Parsed (JObj members)) = inr features ->
  drawn_jitter w = 0 ->
  let default v d := match v with Some j => as_float j | None => Some d end in
  default (member "rsi" members) 50 = Some (rsi features) /\
  default (member "pe" members) 20 = Some (pe features) /\
  default (member "peg" members) 1.0 = Some (peg features) /\
  default (member "sentiment" members) 0.0 = Some (sentiment features) /\
  default (member "atr" members) 1.0 = Some (atr features) /\
  let defaults := {| ticker := ticker features; rsi := 50; pe := 20;
                     peg := 1.0; sentiment := 0.0; atr := 1.0 |} in
  base_risk defaults = inr (Py.PyFloat ((0 + 0.2 + 0.5) / 3)) /\
  exists r, fst (score defaults w) = inr r /\
    risk_score r = Py.PyFloat 0.233.
Proof.
  intros Hval Hj default.
  assert (Hfields :
    default (member "rsi" members) 50 = Some (rsi features) /\
    default (member "pe" members) 20 = Some (pe features) /\
    default (member "peg" members) 1.0 = Some (peg features) /\
    default (member "sentiment" members) 0.0 = Some (sentiment features) /\
    default (member "atr" members) 1.0 = Some (atr features)).
  { revert Hval. unfold validate, default.
    destruct (field_cases as_str None "ticker" members)
      as [(t & -> & _ & _) | (e1 & -> & _)];
    destruct (field_cases as_float (Some 50) "rsi" members)
      as [(r & -> & _ & Hr) | (e2 & -> & _)];
    destruct (field_cases as_float (Some 20) "pe" members)
      as [(p & -> & _ & Hp) | (e3 & -> & _)];
    destruct (field_cases as_float (Some 1.0) "peg" members)
      as [(g & -> & _ & Hg) | (e4 & -> & _)];
    destruct (field_cases as_float (Some 0.0) "sentiment" members)
      as [(s & -> & _ & Hs) | (e5 & -> & _)];
    destruct (field_cases as_float (Some 1.0) "atr" members)
      as [(a & -> & _ & Ha) | (e6 & -> & _)];
    try discriminate.
    intros [= <-]. cbn [rsi pe peg sentiment atr].
    repeat split.
    - destruct (member "rsi" members); congruence.
    - destruct (member "pe" members); congruence.
    - destruct (member "peg" members); congruence.
    - destruct (member "sentiment" members); congruence.
    - destruct (member "atr" members); congruence. }
  destruct Hfields as (H1 & H2 & H3 & H4 & H5).
  repeat (split; [assumption|]).
  intros defaults.
  assert (Hb : base_risk defaults = inr (Py.PyFloat ((0 + 0.2 + 0.5) / 3)))
    by reflexivity.
  split; [exact Hb|].
  assert (Hv : score_value (Py.PyFloat ((0 + 0.2 + 0.5) / 3)) (drawn_jitter w)
               = inr (Py.PyFloat 0.233))
    by (rewrite Hj; vm_compute; reflexivity).
  rewrite (score_run defaults w _ _ Hb Hv).
  eexists. split; reflexivity.
Qed.

End RequestClaims.

(** ** The claims at a concrete request *)

Lemma replay_randint_in_range : @randint_in_range replay replay_runtime.
Proof.
  intros a b w Hab. cbn [random_randint replay_runtime fst].
  pose proof (Z.mod_pos_bound (raw_int w) (b - a + 1) ltac:(lia)). lia.
Qed.

Lemma score_computes_formula_witness :
  jitter_in_range (drawn_jitter noon) = true /\
  rsi_term aapl_features = inr (Spec.rsi_term aapl_features) /\
  pe_term aapl_features = inr (Spec.pe_term aapl_features) /\
  sentiment_term aapl_features = inr (Spec.sentiment_term aapl_features) /\
  exists b r,
    base_risk aapl_features = inr b /\
    Py.to_float b = Spec.base_risk aapl_features /\
    fst (score aapl_features noon) = inr r /\
    Py.eq (risk_score r)
      (Py.PyFloat (Spec.risk_score aapl_features (drawn_jitter noon))) = true.
Proof.
  split; [reflexivity|].
  apply (score_computes_formula aapl_features noon). reflexivity.
Defined.

Lemma risk_score_in_unit_interval_witness :
  jitter_in_range (drawn_jitter noon) = true /\
  exists r, fst (score aapl_features noon) = inr r /\
    in_unit_interval (risk_score r) = true.
Proof.
  split; [reflexivity|].
  apply (risk_score_in_unit_interval aapl_features noon). reflexivity.
Defined.

Lemma full_risk_score_range_witness :
  jitter_in_range (drawn_jitter noon) = true /\
  exists r,
    fst (score {| ticker := "NVDA"; rsi := 100; pe := 100; peg := 2.5;
                  sentiment := -1; atr := 5.2 |} noon) = inr r /\
    Py.le (Py.PyFloat 0.95) (risk_score r) = true /\
    Py.le (risk_score r) (Py.PyFloat 1.0) = true.
Proof.
  split; [reflexivity|].
  apply (full_risk_score_range "NVDA" 2.5 5.2 noon). reflexivity.
Defined.



Lemma defaults_and_default_score_witness :
  validate (Parsed (JObj [("ticker", JStr "MSFT")]))
  = inr {| ticker := "MSFT"; rsi := 50; pe := 20; peg := 1.0;
           sentiment := 0.0; atr := 1.0 |} /\
  drawn_jitter noon = 0 /\
  exists r,
    fst (score {| ticker := "MSFT"; rsi := 50; pe := 20; peg := 1.0;
                  sentiment := 0.0; atr := 1.0 |} noon) = inr r /\
    risk_score r = Py.PyFloat 0.233.
Proof.
  split; [reflexivity|]. split; [reflexivity|].
  apply (defaults_and_default_score [("ticker", JStr "MSFT")]
           {| ticker := "MSFT"; rsi := 50; pe := 20; peg := 1.0;
              sentiment := 0.0; atr := 1.0 |} noon); reflexivity.
Defined.

Lemma latency_in_range_witness :
  @randint_in_range replay replay_runtime /\
  exists r r', fst (score aapl_features noon) = inr r /\
    fst (score {| ticker := "MSFT"; rsi := 45.0; pe := 18.5; peg := 0.9;
                  sentiment := -0.2; atr := 1.8 |} noon) = inr r' /\
    (10 <= latency_ms r <= 30)%Z /\
    latency_ms r = drawn_latency noon /\
    latency_ms r' = latency_ms r.
Proof.
  split; [exact replay_randint_in_range|].
  apply (latency_in_range aapl_features _ noon). exact replay_randint_in_range.
Defined.

Lemma peg_atr_do_not_matter_witness :
  score aapl_features noon
  = score {| ticker := "AAPL"; rsi := 65.5; pe := 25.2; peg := 9;
             sentiment := 0.3; atr := 0 |} noon.
Proof.
  apply (peg_atr_do_not_matter aapl_features
           {| ticker := "AAPL"; rsi := 65.5; pe := 25.2; peg := 9;
              sentiment := 0.3; atr := 0 |} noon); reflexivity.
Defined.

(** * Further properties of the handler *)

(** ** NaN and sign through the arithmetic *)

Section NaN.

Lemma SFeqb_refl (a : spec_float) : a <> S754_nan -> SFeqb a a = true.
Proof.
  unfold SFeqb, SFcompare.
  destruct a as [[] | [] | | [] m e]; try reflexivity; try contradiction;
    intros _; rewrite Z.compare_refl, Pos.compare_cont_refl; reflexivity.
Qed.

Lemma is_nan_Prim2SF (x : float) :
  is_nan x = true <-> Prim2SF x = S754_nan.
Proof.
  unfold is_nan. rewrite FloatAxioms.eqb_spec, negb_true_iff. split.
  - intros Hne. destruct (Prim2SF x) eqn:E; try reflexivity;
      rewrite SFeqb_refl in Hne by discriminate; discriminate.
  - intros ->. reflexivity.
Qed.

Lemma is_nan_false (x : float) :
  is_nan x = false <-> Prim2SF x <> S754_nan.
Proof.
  rewrite <- is_nan_Prim2SF. destruct (is_nan x); split; congruence.
Qed.

Lemma sub_nan_l (x y : float) :
  Prim2SF x = S754_nan -> Prim2SF (x - y) = S754_nan.
Proof. intros E. rewrite sub_spec, E. reflexivity. Qed.

Lemma sub_nan_r (x y : float) :
  Prim2SF y = S754_nan -> Prim2SF (x - y) = S754_nan.
Proof.
  intros E. rewrite sub_spec, E. destruct (Prim2SF x) as [[] | [] | | [] m e]; reflexivity.
Qed.

Lemma add_nan_l (x y : float) :
  Prim2SF x = S754_nan -> Prim2SF (x + y) = S754_nan.
Proof. intros E. rewrite add_spec, E. reflexivity. Qed.

Lemma add_nan_r (x y : float) :
  Prim2SF y = S754_nan -> Prim2SF (x + y) = S754_nan.
Proof.
  intros E. rewrite add_spec, E. destruct (Prim2SF x) as [[] | [] | | [] m e]; reflexivity.
Qed.

Lemma div_nan_l (x y : float) :
  Prim2SF x = S754_nan -> Prim2SF (x / y) = S754_nan.
Proof. intros E. rewrite div_spec, E. reflexivity. Qed.

Lemma abs_nan (x : float) :
  Prim2SF x = S754_nan -> Prim2SF (abs x) = S754_nan.
Proof. intros E. rewrite abs_spec, E. reflexivity. Qed.

Lemma min_one_nan (mean : float) :
  Prim2SF mean = S754_nan ->
  Py.min (Py.PyInt 1) (Py.PyFloat mean) = Py.PyInt 1.
Proof.
  intros E. unfold Py.min, Py.lt, Py.to_float.
  rewrite ltb_spec, E. reflexivity.
Qed.

Lemma mean_nan (features : Features) :
  is_nan (rsi features) || is_nan (pe features) || is_nan (sentiment features)
  = true ->
  Prim2SF ((abs (rsi features - 50) / 50 + pe features / 100
            + (1 - (sentiment features + 1) / 2)) / 3) = S754_nan.
Proof.
  rewrite !orb_true_iff, !is_nan_Prim2SF. intros [[Hr | Hp] | Hs];
    apply div_nan_l.
  - do 2 apply add_nan_l. apply div_nan_l, abs_nan, sub_nan_l, Hr.
  - apply add_nan_l, add_nan_r, div_nan_l, Hp.
  - apply add_nan_r, sub_nan_r, div_nan_l, add_nan_l, Hs.
Qed.

Lemma ltb_leb (a b : float) : (a <? b) = true -> (a <=? b) = true.
Proof.
  rewrite ltb_spec, leb_spec. unfold SFltb, SFleb.
  destruct (SFcompare (Prim2SF a) (Prim2SF b)) as [[] |]; congruence.
Qed.

Local Open Scope Z_scope.

(** Rounding a non-negative mantissa keeps the sign it is given. *)
Lemma binary_round_aux_sign (s : bool) (m e : Z) (l : location) :
  0 <= m ->
  match binary_round_aux prec emax s m e l with
  | S754_zero s' | S754_infinity s' | S754_finite s' _ _ => s' = s
  | S754_nan => False
  end.
Proof.
  intros Hm. unfold binary_round_aux, shr_fexp.
  pose proof (shr_m_nonneg (shr_record_of_loc m l) e
                (fexp prec emax (Zdigits2 m + e) - e)) as H1.
  rewrite shr_record_of_loc_m in H1. specialize (H1 Hm).
  destruct (shr (shr_record_of_loc m l) e _) as [r1 e1]. cbn [fst] in H1.
  pose proof (round_nearest_even_bounds (shr_m r1) (loc_of_shr_record r1)) as Hr.
  set (m1 := round_nearest_even _ _) in *.
  pose proof (shr_m_nonneg (shr_record_of_loc m1 loc_Exact) e1
                (fexp prec emax (Zdigits2 m1 + e1) - e1)) as H2.
  rewrite shr_record_of_loc_m in H2. specialize (H2 ltac:(lia)).
  destruct (shr (shr_record_of_loc m1 loc_Exact) e1 _) as [r2 e2].
  cbn [fst] in H2.
  destruct (shr_m r2) as [| p | p];
    [reflexivity | destruct (e2 <=? emax - prec); reflexivity | lia].
Qed.

Lemma Prim2SF_fifty : Prim2SF 50 = S754_finite false 7036874417766400 (-47).
Proof. reflexivity. Qed.

(** [abs(a) / 50] is a NaN or carries a positive sign. *)
Lemma abs_div_fifty_sign (a : float) :
  match Prim2SF (abs a / 50) with
  | S754_zero s | S754_infinity s | S754_finite s _ _ => s = false
  | S754_nan => True
  end.
Proof.
  rewrite div_spec, abs_spec, Prim2SF_fifty. unfold SF64div, SFdiv, SFabs.
  destruct (Prim2SF a) as [s | s | | s m e]; try reflexivity; try exact I.
  unfold SFdiv_core_binary.
  set (m' := match _ with Z0 => Zpos m | Zpos _ => _ | Zneg _ => 0 end).
  assert (Hm' : 0 <= m').
  { unfold m'. destruct (_ - _ - _); try lia. apply Z.shiftl_nonneg. lia. }
  pose proof (Z.div_pos m' 7036874417766400 Hm' ltac:(lia)) as Hq.
  unfold Z.div in Hq.
  destruct (Z.div_eucl m' 7036874417766400) as [q r]. cbn [fst] in Hq.
  pose proof (binary_round_aux_sign (xorb false false) q
                (Z.min (fexp prec emax
                          (Zdigits2 (Zpos m) + e
                           - (Zdigits2 7036874417766400 + -47)))
                   (e - -47))
                (new_location 7036874417766400 r) Hq) as Hs.
  destruct (binary_round_aux _ _ _ _ _ _); auto.
Qed.

End NaN.

(** ** Saturation, order and accuracy of the score *)

Section Saturation.

Context {World : Type} `{Runtime World}.

(** X1. Whenever [base_risk] is capped at the [int] 1, the reported score
    lies in [0.95, 1.0] for every jitter in [-0.05, 0.05]. *)
Theorem capped_base_risk_scores_high (features : Features) (w : World) :
  base_risk features = inr (Py.PyInt 1) ->
  jitter_in_range (drawn_jitter w) = true ->
  exists r, fst (score features w) = inr r /\
    Py.le (Py.PyFloat 0.95) (risk_score r) = true /\
    Py.le (risk_score r) (Py.PyFloat 1.0) = true.
Proof.
  intros Hb Hj. apply jitter_in_range_iff in Hj as [Hlo Hhi].
  destruct (score_value_full_risk _ Hlo Hhi) as (v & Hv & H95 & H1).
  rewrite (score_run features w _ v Hb Hv).
  eexists. split; [reflexivity|]. split; assumption.
Qed.

(** X2. A NaN in [rsi], [pe] or [sentiment] is scored as full risk:
    [min(1, nan)] keeps the 1, so [base_risk] is the [int] 1 and the score
    lies in [0.95, 1.0] for every jitter in range. *)
Theorem nan_scores_as_full_risk (features : Features) (w : World) :
  is_nan (rsi features) || is_nan (pe features) || is_nan (sentiment features)
  = true ->
  jitter_in_range (drawn_jitter w) = true ->
  base_risk features = inr (Py.PyInt 1) /\
  exists r, fst (score features w) = inr r /\
    Py.le (Py.PyFloat 0.95) (risk_score r) = true /\
    Py.le (risk_score r) (Py.PyFloat 1.0) = true.
Proof.
  intros Hnan Hj. apply jitter_in_range_iff in Hj as [Hlo Hhi].
  assert (Hb : base_risk features = inr (Py.PyInt 1)).
  { rewrite base_risk_eq, (min_one_nan _ (mean_nan features Hnan)).
    reflexivity. }
  split; [exact Hb|].
  destruct (score_value_full_risk _ Hlo Hhi) as (v & Hv & H95 & H1).
  rewrite (score_run features w _ v Hb Hv).
  eexists. split; [reflexivity|]. split; assumption.
Qed.

(** X3. [base_risk] is never above 1 and never a NaN, whatever the
    request: the cap [min(1, .)] also absorbs an unordered mean. *)
Theorem base_risk_capped_and_ordered (features : Features) :
  exists b, base_risk features = inr b /\
    Py.le b (Py.PyInt 1) = true /\
    is_nan (Py.to_float b) = false.
Proof.
  rewrite base_risk_eq. eexists. split; [reflexivity|].
  unfold Py.min, Py.lt, Py.to_float. rewrite float_of_Z_1.
  destruct (_ <? 1) eqn:Hlt.
  - split.
    + unfold Py.le, Py.to_float. rewrite float_of_Z_1.
      apply ltb_leb. exact Hlt.
    + apply is_nan_false. exact (ltb_not_nan_l _ _ Hlt).
  - split; reflexivity.
Qed.

(** X4. [rsi_term] is never negative: it is a NaN or compares as at least
    0, so only [pe] and [sentiment] can pull [base_risk] below zero. *)
Theorem rsi_term_not_negative (features : Features) :
  exists t, rsi_term features = inr t /\
    (t <? 0) = false /\
    (is_nan t = true \/ (0 <=? t) = true).
Proof.
  exists (abs (rsi features - 50) / 50).
  split; [unfold rsi_term; apply truediv_nonzero; reflexivity|].
  pose proof (abs_div_fifty_sign (rsi features - 50)) as Hs.
  rewrite ltb_spec, leb_spec, is_nan_Prim2SF, Prim2SF_zero.
  destruct (Prim2SF (abs (rsi features - 50) / 50)) as [s | s | | s m e];
    try subst s; auto.
Qed.

End Saturation.

Section Accuracy.

Local Open Scope Z_scope.

Lemma div_half_even_error (num den : Z) :
  0 < den -> 2 * Z.abs (Py.div_half_even num den * den - num) <= den.
Proof.
  intros Hden. unfold Py.div_half_even.
  pose proof (Z.div_mod num den ltac:(lia)) as Hdm.
  pose proof (Z.mod_pos_bound num den Hden) as Hr.
  set (q := num / den) in *. set (r := num mod den) in *.
  destruct (Z.compare_spec (2 * r) den) as [Heq | Hlt | Hgt];
    try destruct (Z.even q); nia.
Qed.

(** X5. Between the bounds the score is accurate to half a thousandth: when
    [x = base_risk + jitter] lies strictly between 0 and 1 and has the
    exact value [m * 2^e], the score is the numeral [k / 1000] with
    [|k / 1000 - x| <= 0.0005], stated over the integers as
    [2 * |k * 2^(-e) - 1000 * m| <= 2^(-e)]. *)
Theorem score_within_half_a_thousandth (b : Py.num) (j : float) :
  (0 <? Py.to_float b + j)%float = true ->
  (Py.to_float b + j <? 1)%float = true ->
  exists m e k,
    Prim2SF (Py.to_float b + j) = S754_finite false m e /\ e < 0 /\
    0 <= k <= 1000 /\
    score_value b j = inr (Py.PyFloat (Py.decimal false k 3)) /\
    2 * Z.abs (k * 2 ^ (- e) - 1000 * Zpos m) <= 2 ^ (- e).
Proof.
  intros H0 H1.
  destruct (between_zero_one _ H0 H1) as (m & e & Hx & He & Hm).
  assert (Hp : 0 < 2 ^ (- e)) by (apply Z.pow_pos_nonneg; lia).
  exists m, e, (Py.div_half_even (Zpos m * 1000) (2 ^ (- e))).
  assert (Hk : 0 <= Py.div_half_even (Zpos m * 1000) (2 ^ (- e)) <= 1000).
  { split; [apply (div_half_even_lower _ _ 0) | apply div_half_even_upper]; lia. }
  assert (Hr : Py.round_to (Py.to_float b + j) 3
               = Py.decimal false (Py.div_half_even (Zpos m * 1000) (2 ^ (- e))) 3).
  { unfold Py.round_to. rewrite Hx.
    change (323 <? 3) with false. change (3 <? -308) with false. cbv iota.
    unfold Py.scaled_digits.
    rewrite (Z.max_r e 0), (Z.max_l (- e) 0) by lia.
    change (10 ^ Z.max 3 0) with 1000. change (10 ^ Z.max (- (3)) 0) with 1.
    change (2 ^ 0) with 1. rewrite !Z.mul_1_r. reflexivity. }
  repeat split; try assumption; try lia.
  - unfold score_value. rewrite add_float.
    destruct (clamp_cases (Py.to_float b + j))
      as [(E & _) | [(_ & E & _) | (_ & _ & ->)]]; try congruence.
    destruct (unit_numeral_facts _ Hk) as (_ & _ & _ & _ & _ & Hinf & _).
    unfold Py.round. rewrite Hr, Hinf. reflexivity.
  - pose proof (div_half_even_error (Zpos m * 1000) (2 ^ (- e)) Hp) as Herr.
    replace (1000 * Zpos m) with (Zpos m * 1000) by lia. exact Herr.
Qed.

End Accuracy.

(** ** Saturation at zero *)

Section Floor.

Local Open Scope Z_scope.

Lemma shl_align_value (m : positive) (e e' : Z) :
  e' <= e -> Zpos (fst (shl_align m e e')) = Zpos m * 2 ^ (e - e').
Proof.
  intros He. unfold shl_align.
  destruct (e' - e) as [| d | d] eqn:Hd; cbn [fst]; try lia.
  - replace (e - e') with 0 by lia. change (2 ^ 0) with 1. lia.
  - rewrite iter_xO_pow. f_equal. f_equal. lia.
Qed.

(** Normalising a sum that is not positive gives a zero or a negative
    value. *)
Lemma binary_normalize_nonpos (S e : Z) :
  S <= 0 ->
  match binary_normalize prec emax S e false with
  | S754_zero _ => True
  | S754_infinity s | S754_finite s _ _ => s = true
  | S754_nan => False
  end.
Proof.
  intros HS. unfold binary_normalize, binary_round.
  destruct S as [| p | p]; [exact I | lia |].
  destruct (shl_align p e _) as [mz ez].
  pose proof (binary_round_aux_sign true (Zpos mz) ez loc_Exact ltac:(lia)) as Hs.
  destruct (binary_round_aux _ _ _ _ _ _); auto.
Qed.

Lemma Prim2SF_neg_jitter_high :
  Prim2SF (-0.05) = S754_finite true 7205759403792794 (-57).
Proof. reflexivity. Qed.

(** A float at most -0.05 plus a float at most 0.05 is not positive. *)
Lemma sum_not_positive (a j : float) :
  (a <=? -0.05)%float = true -> (j <=? 0.05)%float = true ->
  (0 <? a + j)%float = false.
Proof.
  rewrite !leb_spec, ltb_spec, add_spec, Prim2SF_zero,
    Prim2SF_neg_jitter_high, Prim2SF_jitter_high.
  pose proof (Prim2SF_valid a) as Hva. pose proof (Prim2SF_valid j) as Hvj.
  destruct (Prim2SF a) as [sa | sa | | sa ma ea]; try discriminate.
  - destruct sa; [|discriminate]. intros _.
    destruct (Prim2SF j) as [sj | sj | | sj mj ej]; try discriminate;
      try reflexivity.
    destruct sj; [reflexivity | discriminate].
  - destruct sa; [|discriminate].
    apply valid_finite_bounds in Hva as (Hma & Hea & Hda).
    unfold SFleb at 1. unfold SFcompare at 1. intros Ha.
    assert (Hea57 : -57 <= ea).
    { destruct (Z.compare_spec ea (-57)) as [-> | Hlt | Hgt];
        try discriminate; clear Ha; lia. }
    assert (HmaC : ea = -57 -> 7205759403792794 <= Zpos ma).
    { intros ->. rewrite Z.compare_refl in Ha. apply Z.ge_le.
      change (Pos.compare_cont Eq ma 7205759403792794 <> Lt).
      destruct (Pos.compare_cont Eq ma 7205759403792794); discriminate. }
    clear Ha.
    destruct (Prim2SF j) as [sj | sj | | sj mj ej]; try discriminate.
    + intros _. reflexivity.
    + destruct sj; [reflexivity | discriminate].
    + apply valid_finite_bounds in Hvj as (Hmj & Hej & _).
      unfold SFleb, SFcompare. intros Hj.
      assert (Hsum :
        cond_Zopp true (Zpos (fst (shl_align ma ea (Z.min ea ej))))
        + cond_Zopp sj (Zpos (fst (shl_align mj ej (Z.min ea ej)))) <= 0).
      { rewrite !shl_align_value by lia. cbn [cond_Zopp].
        destruct sj.
        - clear Hj.
          assert (0 < 2 ^ (ea - Z.min ea ej)) by (apply Z.pow_pos_nonneg; lia).
          assert (0 < 2 ^ (ej - Z.min ea ej)) by (apply Z.pow_pos_nonneg; lia).
          cbn [cond_Zopp]. nia.
        - cbn [cond_Zopp].
          assert (Hej57 : ej <= -57).
          { destruct (Z.compare_spec ej (-57)) as [-> | Hlt | Hgt];
              try discriminate; clear Hj; lia. }
          rewrite (Z.min_r ea ej) by lia.
          replace (ej - ej) with 0 by lia. change (2 ^ 0) with 1.
          destruct (Z.eq_dec ea ej) as [E | N].
          + assert (ej = -57) by lia. subst ej. subst ea.
            rewrite Z.compare_refl in Hj.
            assert (Zpos mj <= 7205759403792794).
            { change (Pos.compare_cont Eq mj 7205759403792794 <> Gt).
              destruct (Pos.compare_cont Eq mj 7205759403792794);
                discriminate. }
            specialize (HmaC eq_refl). clear Hj.
            replace (-57 - -57) with 0 by lia. change (2 ^ 0) with 1. lia.
          + clear Hj HmaC.
            assert (Hd : Zpos (digits2_pos ma) = 53) by (destruct Hda; lia).
            pose proof (digits2_pos_bounds ma) as [HL _]. rewrite Hd in HL.
            change (2 ^ (53 - 1)) with 4503599627370496 in HL.
            change (2 ^ 53) with 9007199254740992 in Hmj.
            assert (2 ^ 1 <= 2 ^ (ea - ej)) by (apply Z.pow_le_mono_r; lia).
            change (2 ^ 1) with 2 in *. nia. }
      unfold SF64add, SFadd.
      pose proof (binary_normalize_nonpos _ (Z.min ea ej) Hsum) as Hn.
      destruct (binary_normalize _ _ _ _ _) as [s | s | | s m e];
        try subst s; try reflexivity; contradiction.
Qed.

End Floor.

Section FloorClaim.

Context {World : Type} `{Runtime World}.

(** X6. Saturation at zero: when [base_risk] is at most -0.05, the score
    is the [int] 0 for every jitter up to 0.05. *)
Theorem low_base_risk_scores_zero
    (features : Features) (w : World) (b : Py.num) :
  base_risk features = inr b ->
  Py.le b (Py.PyFloat (-0.05)) = true ->
  (drawn_jitter w <=? 0.05) = true ->
  exists r, fst (score features w) = inr r /\ risk_score r = Py.PyInt 0.
Proof.
  intros Hb Hle Hj.
  unfold Py.le in Hle.
  assert (Hle' : (Py.to_float b <=? -0.05) = true) by (destruct b; exact Hle).
  pose proof (sum_not_positive _ _ Hle' Hj) as Hx.
  assert (Hv : score_value b (drawn_jitter w) = inr (Py.PyInt 0)).
  { unfold score_value. rewrite add_float.
    destruct (clamp_cases (Py.to_float b + drawn_jitter w))
      as [(_ & ->) | [(E & _) | (E & _)]]; [reflexivity | congruence..]. }
  rewrite (score_run features w b _ Hb Hv).
  eexists. split; reflexivity.
Qed.

End FloorClaim.

(** * Further properties of the endpoint *)

Section Requests.

Context `{Decoders} {World : Type} `{Runtime World}.



Lemma errors_field_iff {A : Type} (decode : json -> option A)
    (default : option A) (key : string) (members : list (string * json))
    (e : field_error) :
  In e (errors (field decode default key members)) <->
  (e = Missing key /\ member key members = None /\ default = None) \/
  (exists j, e = Invalid key /\ member key members = Some j /\ decode j = None).
Proof.
  unfold field, errors.
  destruct (member key members) as [j |].
  - destruct (decode j) as [a |] eqn:Hd; cbn [In]; split.
    + intros [].
    + intros [(_ & E & _) | (j' & _ & E & E')]; congruence.
    + intros [<- | []]. right. exists j. auto.
    + intros [(_ & E & _) | (j' & -> & _)]; [discriminate | auto].
  - destruct default as [a |]; cbn [In]; split.
    + intros [].
    + intros [(_ & _ & E) | (j' & _ & E & _)]; discriminate.
    + intros [<- | []]. left. auto.
    + intros [(-> & _) | (j' & _ & E & _)]; [auto | discriminate].
Qed.

(** What validation returns for a JSON object: the model, or the failures
    of the six fields in the order declared. *)
Lemma validate_object (members : list (string * json)) :
  (exists features, validate (Parsed (JObj members)) = inr features) \/
  validate (Parsed (JObj members))
  = inl (errors (field as_str None "ticker" members)
         ++ errors (field as_float (Some 50) "rsi" members)
         ++ errors (field as_float (Some 20) "pe" members)
         ++ errors (field as_float (Some 1.0) "peg" members)
         ++ errors (field as_float (Some 0.0) "sentiment" members)
         ++ errors (field as_float (Some 1.0) "atr" members)).
Proof.
  unfold validate.
  destruct (field as_str None "ticker" members);
  destruct (field as_float (Some 50) "rsi" members);
  destruct (field as_float (Some 20) "pe" members);
  destruct (field as_float (Some 1.0) "peg" members);
  destruct (field as_float (Some 0.0) "sentiment" members);
  destruct (field as_float (Some 1.0) "atr" members);
  eauto.
Qed.

(** X8. A 422 names exactly the fields that failed: [ticker] as missing
    when it is absent or as invalid when it does not decode as a string,
    a numeric field as invalid when it is present and does not decode as
    a float. A numeric field is never reported missing. *)
Theorem detail_names_the_failing_fields
    (members : list (string * json)) (detail : list field_error)
    (e : field_error) :
  validate (Parsed (JObj members)) = inl detail ->
  In e detail <->
  (e = Missing "ticker" /\ member "ticker" members = None) \/
  (exists j, e = Invalid "ticker" /\
     member "ticker" members = Some j /\ as_str j = None) \/
  (exists k j, In k numeric_fields /\ e = Invalid k /\
     member k members = Some j /\ as_float j = None).
Proof.
  intros Hv.
  destruct (validate_object members) as [(f & Hf) | Hd]; [congruence|].
  rewrite Hd in Hv. injection Hv as <-.
  rewrite !in_app_iff, !errors_field_iff.
  unfold numeric_fields. cbn [In]. split.
  - intros [[(-> & E & _) | (j & -> & E & E')] | Hrest].
    + left. auto.
    + right. left. eauto.
    + right. right.
      destruct Hrest as [[(_ & _ & D) | (j & -> & E & E')]
        | [[(_ & _ & D) | (j & -> & E & E')]
        | [[(_ & _ & D) | (j & -> & E & E')]
        | [[(_ & _ & D) | (j & -> & E & E')]
        | [(_ & _ & D) | (j & -> & E & E')]]]]];
        try discriminate; eexists; exists j; repeat split; eauto 10.
  - intros [(-> & E) | [(j & -> & E & E') | (k & j & Hk & -> & E & E')]].
    + left. left. auto.
    + left. right. eauto.
    + right.
      destruct Hk as [<- | [<- | [<- | [<- | [<- | []]]]]]; eauto 12.
Qed.

End Requests.

(** * The service on the wire and its test client *)

Section WireProps.

Context `{Decoders} {World : Type} `{Runtime World}.

Variable error_json : field_error -> json.

Lemma serve_validated (b : body) (features : Features) (w : World) :
  validate b = inr features ->
  utf8_encodable (ticker features) = true ->
  is_finite (clock_reading w) = true ->
  exists score_json,
    serve error_json b w
    = (Replied 200
         (Some (JObj [("ticker", JStr (ticker features));
                      ("risk_score", score_json);
                      ("timestamp", JFloat (clock_reading w));
                      ("latency_ms", JInt (drawn_latency w));
                      ("model_version", JStr "v0.1")])),
       final_world w).
Proof.
  intros Hval Henc Hclock.
  destruct (post_score_validated b features w Hval) as (r & sj & _ & _ & Hp).
  exists sj. unfold serve. rewrite Hp, Henc, Hclock. reflexivity.
Qed.


(** X10. The manual test client against the service: when the decoders
    read a JSON string as a [str] and a JSON float as a [float], and the
    three clock readings are finite, each of its three requests is
    reported as having a valid response structure, and the requests are
    served one after the other. *)
Theorem smoke_test_reports_valid (w : World) :
  (forall s, as_str (JStr s) = Some s) ->
  (forall x, as_float (JFloat x) = Some x) ->
  is_finite (clock_reading w) = true ->
  is_finite (clock_reading (final_world w)) = true ->
  is_finite (clock_reading (final_world (final_world w))) = true ->
  test_risk_scoring (serve error_json) w
  = ([StructureValid; StructureValid; StructureValid],
     final_world (final_world (final_world w))).
Proof.
  intros Hstr Hfloat Hc1 Hc2 Hc3.
  assert (Hval : forall b, In b test_cases ->
                   exists features,
                     validate b = inr features /\
                     utf8_encodable (ticker features) = true).
  { intros b [<- | [<- | [<- | []]]]; eexists;
      unfold validate, aapl, msft, nvda, field; cbn [member String.eqb];
      cbn; rewrite ?Hstr, ?Hfloat; split; reflexivity. }
  unfold test_risk_scoring, test_cases. cbn [run_cases].
  destruct (Hval aapl ltac:(cbn; auto)) as (f1 & Hf1 & He1).
  destruct (Hval msft ltac:(cbn; auto)) as (f2 & Hf2 & He2).
  destruct (Hval nvda ltac:(cbn; auto)) as (f3 & Hf3 & He3).
  destruct (serve_validated aapl f1 w Hf1 He1 Hc1) as (s1 & ->).
  destruct (serve_validated msft f2 _ Hf2 He2 Hc2) as (s2 & ->).
  destruct (serve_validated nvda f3 _ Hf3 He3 Hc3) as (s3 & ->).
  reflexivity.
Qed.


End WireProps.

Section Client.

Lemma all_in_object (fields : list string) (members : list (string * json)) :
  all_in fields (JObj members) = Some true <->
  forall field, In field fields -> member field members <> None.
Proof.
  induction fields as [| f fields IH]; cbn [all_in py_in In].
  - split; [intros _ field [] | reflexivity].
  - destruct (member f members) as [v |] eqn:Hf.
    + rewrite IH. split.
      * intros Hall field [<- | Hin]; [congruence | auto].
      * intros Hall field Hin. apply Hall. auto.
    + split; [discriminate|]. intros Hall. exfalso.
      apply (Hall f); auto.
Qed.

(** X12. The client's check is structural only: a reply with a JSON
    object is reported valid exactly when its status is 200 and the object
    has the five required keys, whatever values they hold. *)
Theorem client_accepts_on_structure (status_code : Z)
    (members : list (string * json)) :
  check_reply (Replied status_code (Some (JObj members))) = StructureValid <->
  status_code = 200%Z /\
  forall field, In field required_fields -> member field members <> None.
Proof.
  unfold check_reply. rewrite <- all_in_object.
  destruct (Z.eqb_spec status_code 200) as [-> | Hne].
  - destruct (all_in required_fields (JObj members)) as [[] |];
      split; try tauto; try discriminate; intros [_ E]; discriminate.
  - split; [discriminate | tauto].
Qed.

End Client.

Section RuntimeOrder.

Context {World : Type} `{Runtime World}.

(** X13. The request has no influence on the runtime: whatever the two
    requests, served from the same world they leave the same world behind
    and carry the same timestamp, the clock read between the jitter draw
    and the latency draw. *)
Theorem request_does_not_steer_runtime (features other : Features) (w : World) :
  snd (score features w) = snd (score other w) /\
  exists r r', fst (score features w) = inr r /\
    fst (score other w) = inr r' /\
    timestamp r = clock_reading w /\ timestamp r' = timestamp r.
Proof.
  destruct (score_returns features w) as (b & v & _ & _ & ->).
  destruct (score_returns other w) as (b' & v' & _ & _ & ->).
  split; [reflexivity|]. do 2 eexists. repeat split.
Qed.

End RuntimeOrder.

(** ** The further properties at concrete requests *)

Lemma capped_base_risk_scores_high_witness :
  base_risk {| ticker := "NVDA"; rsi := 100; pe := 100; peg := 2.5;
               sentiment := -1; atr := 5.2 |} = inr (Py.PyInt 1) /\
  jitter_in_range (drawn_jitter noon) = true /\
  exists r,
    fst (score {| ticker := "NVDA"; rsi := 100; pe := 100; peg := 2.5;
                  sentiment := -1; atr := 5.2 |} noon) = inr r /\
    Py.le (Py.PyFloat 0.95) (risk_score r) = true /\
    Py.le (risk_score r) (Py.PyFloat 1.0) = true.
Proof.
  split; [reflexivity|]. split; [reflexivity|].
  apply (capped_base_risk_scores_high _ noon); reflexivity.
Defined.

Lemma nan_scores_as_full_risk_witness :
  is_nan nan || is_nan 20 || is_nan 0 = true /\
  jitter_in_range (drawn_jitter noon) = true /\
  base_risk {| ticker := "X"; rsi := nan; pe := 20; peg := 1;
               sentiment := 0; atr := 1 |} = inr (Py.PyInt 1).
Proof.
  split; [reflexivity|]. split; [reflexivity|].
  apply (nan_scores_as_full_risk
           {| ticker := "X"; rsi := nan; pe := 20; peg := 1;
              sentiment := 0; atr := 1 |} noon); reflexivity.
Defined.

Lemma score_within_half_a_thousandth_witness :
  (0 <? Py.to_float (Py.PyFloat 0.3037) + 0) = true /\
  (Py.to_float (Py.PyFloat 0.3037) + 0 <? 1) = true /\
  exists m e k,
    Prim2SF (Py.to_float (Py.PyFloat 0.3037) + 0) = S754_finite false m e /\
    (e < 0)%Z /\ (0 <= k <= 1000)%Z /\
    score_value (Py.PyFloat 0.3037) 0
    = inr (Py.PyFloat (Py.decimal false k 3)) /\
    (2 * Z.abs (k * 2 ^ (- e) - 1000 * Zpos m) <= 2 ^ (- e))%Z.
Proof.
  split; [reflexivity|]. split; [reflexivity|].
  apply (score_within_half_a_thousandth (Py.PyFloat 0.3037) 0); reflexivity.
Defined.

Lemma low_base_risk_scores_zero_witness :
  base_risk {| ticker := "X"; rsi := 50; pe := -1000; peg := 1;
               sentiment := 1; atr := 1 |} = inr (Py.PyFloat (-10 / 3)) /\
  Py.le (Py.PyFloat (-10 / 3)) (Py.PyFloat (-0.05)) = true /\
  (drawn_jitter noon <=? 0.05) = true /\
  exists r,
    fst (score {| ticker := "X"; rsi := 50; pe := -1000; peg := 1;
                  sentiment := 1; atr := 1 |} noon) = inr r /\
    risk_score r = Py.PyInt 0.
Proof.
  split; [reflexivity|]. split; [reflexivity|]. split; [reflexivity|].
  apply (low_base_risk_scores_zero
           {| ticker := "X"; rsi := 50; pe := -1000; peg := 1;
              sentiment := 1; atr := 1 |} noon (Py.PyFloat (-10 / 3)));
    reflexivity.
Defined.


Lemma detail_names_the_failing_fields_witness :
  validate (Parsed (JObj [("rsi", JStr "high")]))
  = inl [Missing "ticker"; Invalid "rsi"] /\
  (In (Missing "ticker") [Missing "ticker"; Invalid "rsi"] <->
   (Missing "ticker" = Missing "ticker" /\
    member "ticker" [("rsi", JStr "high")] = None) \/
   (exists j, Missing "ticker" = Invalid "ticker" /\
      member "ticker" [("rsi", JStr "high")] = Some j /\ as_str j = None) \/
   (exists k j, In k numeric_fields /\ Missing "ticker" = Invalid k /\
      member k [("rsi", JStr "high")] = Some j /\ as_float j = None)).
Proof.
  split; [reflexivity|].
  apply (detail_names_the_failing_fields [("rsi", JStr "high")]
           [Missing "ticker"; Invalid "rsi"] (Missing "ticker")).
  reflexivity.
Defined.

Lemma smoke_test_reports_valid_witness :
  (forall s, as_str (JStr s) = Some s) /\
  (forall x, as_float (JFloat x) = Some x) /\
  is_finite (clock_reading noon) = true /\
  test_risk_scoring (serve (fun _ => JNull)) noon
  = ([StructureValid; StructureValid; StructureValid], noon).
Proof.
  split; [reflexivity|]. split; [reflexivity|]. split; [reflexivity|].
  exact (smoke_test_reports_valid (fun _ => JNull) noon
           (fun _ => eq_refl) (fun _ => eq_refl) eq_refl eq_refl eq_refl).
Defined.
